(** * Synthetic cohort generator of the SHAP explainability notebook

    Shallow embedding of the data-generating cells of
    [notebooks/shap-complete.ipynb]: the module constants, [generate_healthy],
    [generate_infected], the concatenation cell that builds [data], and the
    call to [train_test_split].

    Numbers are IEEE binary64 values (Python [float], NumPy [float64]),
    embedded as Rocq's primitive [float].  The process-wide NumPy generator is
    threaded explicitly through every sampling call; Python exceptions are
    the left summand of the result. *)

From Stdlib Require Import String Ascii ZArith List Bool Lia Floats Permutation.
Import ListNotations.

#[local] Set Warnings "-inexact-float".
#[local] Open Scope Z_scope.

(** ** Exceptions raised by the library calls the notebook makes *)

Inductive exception : Type :=
| ValueError
| KeyError
| IndexError
| OverflowError.

(** ** Module constants (cell 5) *)

Module Const.
#[local] Open Scope float_scope.

(* pressure *)
Definition SYSTOLIC_PRESSURE : float := 105.
Definition SYSTOLIC_PRESSURE_STD : float := 10.
Definition SYSTOLIC_TO_DIASTOLIC_FACTOR : float := 2 / 3.
Definition SYSTOLIC_TO_DIASTOLIC_FACTOR_STD : float := 0.01.

(* body temperature *)
Definition MEAN_BODY_TEMP : float := 36.7.
Definition MEAN_BODY_TEMP_STD : float := 0.05.
Definition BODY_TEMP_NOISE : float := 0.
Definition BODY_TEMP_NOISE_STD : float := 0.01.

(* respiration rate *)
Definition MEAN_RESPIRATION_RATE : float := 14.
Definition MEAN_RESPIRATION_RATE_STD : float := 0.8.
Definition RESPIRATION_RATE_NOISE : float := 0.
Definition RESPIRATION_RATE_NOISE_STD : float := 0.5.
Definition RESPIRATION_RATE_NOISE_INFECTED : float := 1.5.
Definition RESPIRATION_RATE_NOISE_STD_INFECTED : float := 0.4.

(* pulse rate *)
Definition RESPIRATION_TO_PULSE_FACTOR : float := 5.5.
Definition RESPIRATION_TO_PULSE_FACTOR_NOISE : float := 0.2.
Definition PULSE_RATE_NOISE : float := 0.
Definition PULSE_RATE_NOISE_STD : float := 4.
Definition PULSE_RATE_NOISE_INFECTED : float := 10.
Definition PULSE_RATE_NOISE_STD_INFECTED : float := 5.
End Const.
Import Const.

(** ** One-dimensional arrays and element-wise arithmetic *)

Definition array := list float.

Fixpoint zip_with (f : float -> float -> float) (a b : array) : array :=
  match a, b with
  | x :: a', y :: b' => f x y :: zip_with f a' b'
  | _, _ => []
  end.

(** NumPy's binary operators on two 1-d arrays: equal lengths combine
    element by element, a length-1 operand is broadcast, any other pair of
    shapes raises [ValueError]. *)
Definition broadcast (f : float -> float -> float) (a b : array)
  : exception + array :=
  if (length a =? length b)%nat then inr (zip_with f a b)
  else match a, b with
       | [x], _ => inr (map (f x) b)
       | _, [y] => inr (map (fun x => f x y) a)
       | _, _ => inl ValueError
       end.

Definition np_mul : array -> array -> exception + array := broadcast PrimFloat.mul.
Definition np_add : array -> array -> exception + array := broadcast PrimFloat.add.

(** [np.full(n, v)]: a negative dimension raises [ValueError]. *)
Definition np_full (n : Z) (v : float) : exception + array :=
  if n <? 0 then inl ValueError else inr (repeat v (Z.to_nat n)).

Definition np_zeros (n : Z) : exception + array := np_full n 0%float.
Definition np_ones (n : Z) : exception + array := np_full n 1%float.

(** ** Two-dimensional arrays and data frames *)

Record ndarray2 : Type := mk_ndarray2 {
  shape : nat * nat;
  rows : list (list float)
}.

(** [np.stack(arrays, axis=1)]: the k one-dimensional arrays become the k
    columns of an (n, k) array.  No array, or arrays of different lengths,
    raise [ValueError]. *)
Definition np_stack_axis1 (arrays : list array) : exception + ndarray2 :=
  match arrays with
  | [] => inl ValueError
  | a :: rest =>
      if forallb (fun b => (length b =? length a)%nat) rest
      then inr {| shape := (length a, length arrays);
                  rows := map (fun i => map (fun c => nth i c 0%float) arrays)
                              (seq 0 (length a)) |}
      else inl ValueError
  end.

Record DataFrame : Type := mk_DataFrame {
  columns : list string;
  index : list Z;
  values : list (list float)
}.

(** [pd.DataFrame(values, columns=...)] on a 2-d array: the number of column
    names must be the second dimension; the row labels are 0 .. n-1. *)
Definition pd_DataFrame (a : ndarray2) (cols : list string)
  : exception + DataFrame :=
  if (length cols =? snd (shape a))%nat
  then inr {| columns := cols;
              index := map Z.of_nat (seq 0 (fst (shape a)));
              values := rows a |}
  else inl ValueError.

Fixpoint get_loc (name : string) (cols : list string) : option nat :=
  match cols with
  | [] => None
  | c :: cols' =>
      if String.eqb c name then Some 0%nat
      else option_map S (get_loc name cols')
  end.

(** The cell at row position [i] and column [name]
    ([df.iloc[i][name]]), when both exist. *)
Definition cell (df : DataFrame) (i : nat) (name : string) : option float :=
  match get_loc name (columns df), nth_error (values df) i with
  | Some j, Some row => nth_error row j
  | _, _ => None
  end.

Definition nrows (df : DataFrame) : nat := length (values df).

Definition COLUMNS : list string :=
  [ "systolic_pressure";
    "diastolic_pressure";
    "daily_avg_body_temperature";
    "body_temperature";
    "daily_avg_respiration_rate";
    "respiration_rate";
    "daily_avg_pulse_rate";
    "pulse_rate";
    "infection" ]%string.

(** ** The pandas operations of cell 7 *)

(** Rows of [df] rearranged to the column list [cols]; a column [df] does
    not have is filled with NaN. *)
Definition reindex_columns (cols : list string) (df : DataFrame)
  : list (list float) :=
  map (fun row =>
         map (fun c => match get_loc c (columns df) with
                       | Some j => nth j row nan
                       | None => nan
                       end) cols)
      (values df).

(** [pd.concat((a, b))]: rows of [a] followed by rows of [b], row labels
    kept, columns the ordered union of both column lists (uniquely named
    columns, as in the notebook). *)
Definition pd_concat (a b : DataFrame) : DataFrame :=
  let cols :=
    columns a
    ++ filter (fun c => negb (existsb (String.eqb c) (columns a))) (columns b) in
  {| columns := cols;
     index := index a ++ index b;
     values := reindex_columns cols a ++ reindex_columns cols b |}.

(** [df.reset_index(drop=True)] *)
Definition reset_index (df : DataFrame) : DataFrame :=
  {| columns := columns df;
     index := map Z.of_nat (seq 0 (nrows df));
     values := values df |}.

Fixpoint select {A : Type} (mask : list bool) (l : list A) : list A :=
  match mask, l with
  | m :: mask', x :: l' => if m then x :: select mask' l' else select mask' l'
  | _, _ => []
  end.

(** [df.drop(name, axis=1)]: [KeyError] when no column has that name. *)
Definition drop_column (name : string) (df : DataFrame) : exception + DataFrame :=
  if existsb (String.eqb name) (columns df)
  then
    let mask := map (fun c => negb (String.eqb c name)) (columns df) in
    inr {| columns := select mask (columns df);
           index := index df;
           values := map (select mask) (values df) |}
  else inl KeyError.

(** [df[name].values]: [KeyError] when no column has that name. *)
Definition column_values (name : string) (df : DataFrame) : exception + array :=
  match get_loc name (columns df) with
  | Some j => inr (map (fun row => nth j row nan) (values df))
  | None => inl KeyError
  end.

(** ** Reading a binary64 value *)

(** A value of the float specification that is a zero or a finite number of
    magnitude below [2 ^ E]. *)
Definition sf_below (E : Z) (x : spec_float) : bool :=
  match x with
  | S754_zero _ => true
  | S754_finite _ m e => Z.pos (digits2_pos m) + e <=? E
  | _ => false
  end.

(** A binary64 value that is neither NaN nor an infinity and whose magnitude
    is below [2 ^ E]. *)
Definition finite_below (E : Z) (x : float) : bool := sf_below E (Prim2SF x).

(** NumPy's test of a scale argument: not NaN and the sign bit set (so -0.0
    counts as negative). *)
Definition negative_scale (scale : float) : bool :=
  match Prim2SF scale with
  | S754_nan => false
  | S754_zero s | S754_infinity s | S754_finite s _ _ => s
  end.

(** ** The generator and the sampling routines *)

Section Generator.

(** State of NumPy's global legacy generator (Mersenne Twister words plus
    the cached second Gaussian), and one standard-normal draw from it. *)
Variable rng : Type.
Variable legacy_gauss : rng -> float * rng.
(** [np.random.seed(s)] replaces the whole state by one computed from [s]. *)
Variable init_by_seed : Z -> rng.

(** Computations that read and advance the global generator and may
    raise. *)
Definition M (A : Type) : Type := rng -> exception + (A * rng).

Definition ret {A : Type} (a : A) : M A := fun r => inr (a, r).

Definition bind {A B : Type} (m : M A) (k : A -> M B) : M B :=
  fun r => match m r with
           | inl e => inl e
           | inr (a, r') => k a r'
           end.

Definition lift {A : Type} (x : exception + A) : M A :=
  fun r => match x with
           | inl e => inl e
           | inr a => inr (a, r)
           end.

Notation "x <- c ;; k" := (bind c (fun x => k))
  (at level 100, c at next level, right associativity).

Fixpoint gauss_fill (k : nat) (r : rng) : list float * rng :=
  match k with
  | O => ([], r)
  | S k' =>
      let (g, r1) := legacy_gauss r in
      let (gs, r2) := gauss_fill k' r1 in
      (g :: gs, r2)
  end.

(** The generator state after [k] standard-normal draws. *)
Definition advance (k : nat) (r : rng) : rng := snd (gauss_fill k r).

(** [np.random.normal(loc, scale, size)]: a negative scale, and then a
    negative size, raise [ValueError] before anything is drawn; otherwise
    each of the [size] entries is [loc + scale * gauss] for successive
    standard-normal draws.  Sizes are those NumPy can allocate. *)
Definition np_random_normal (loc scale : float) (size : Z) : M array :=
  fun r =>
    if negative_scale scale then inl ValueError
    else if size <? 0 then inl ValueError
    else
      let (gs, r') := gauss_fill (Z.to_nat size) r in
      inr (map (fun g => (loc + scale * g)%float) gs, r').

(** [np.random.seed(s)] with an integer seed: a seed outside
    0 .. 2^32 - 1 raises [ValueError]; otherwise the whole state, cached
    Gaussian included, is replaced by the one computed from the seed. *)
Definition np_random_seed (s : Z) : M unit :=
  fun _ =>
    if (s <? 0) || (4294967295 <? s) then inl ValueError
    else inr (tt, init_by_seed s).

Definition generate_healthy (n_patients : Z) : M DataFrame :=
  (* pressure *)
  systolic_pressure <-
    np_random_normal SYSTOLIC_PRESSURE SYSTOLIC_PRESSURE_STD n_patients ;;
  ratio <-
    np_random_normal SYSTOLIC_TO_DIASTOLIC_FACTOR
                     SYSTOLIC_TO_DIASTOLIC_FACTOR_STD n_patients ;;
  diastolic_pressure <- lift (np_mul systolic_pressure ratio) ;;
  (* body temperature *)
  daily_avg_body_temperature <-
    np_random_normal MEAN_BODY_TEMP MEAN_BODY_TEMP_STD n_patients ;;
  temp_noise <-
    np_random_normal BODY_TEMP_NOISE BODY_TEMP_NOISE_STD n_patients ;;
  body_temperature <- lift (np_add daily_avg_body_temperature temp_noise) ;;
  (* respiration rate *)
  daily_avg_respiration_rate <-
    np_random_normal MEAN_RESPIRATION_RATE MEAN_RESPIRATION_RATE_STD
                     n_patients ;;
  resp_noise <-
    np_random_normal RESPIRATION_RATE_NOISE RESPIRATION_RATE_NOISE_STD
                     n_patients ;;
  respiration_rate <- lift (np_add daily_avg_respiration_rate resp_noise) ;;
  (* pulse rate *)
  factor <-
    np_random_normal RESPIRATION_TO_PULSE_FACTOR
                     RESPIRATION_TO_PULSE_FACTOR_NOISE n_patients ;;
  daily_avg_pulse_rate <- lift (np_mul daily_avg_respiration_rate factor) ;;
  pulse_noise <-
    np_random_normal PULSE_RATE_NOISE PULSE_RATE_NOISE_STD n_patients ;;
  pulse_rate <- lift (np_add daily_avg_pulse_rate pulse_noise) ;;
  infection <- lift (np_zeros n_patients) ;;
  stacked <- lift (np_stack_axis1
                     [ systolic_pressure;
                       diastolic_pressure;
                       daily_avg_body_temperature;
                       body_temperature;
                       daily_avg_respiration_rate;
                       respiration_rate;
                       daily_avg_pulse_rate;
                       pulse_rate;
                       infection ]) ;;
  patients <- lift (pd_DataFrame stacked COLUMNS) ;;
  ret patients.

Definition generate_infected (n_patients : Z) : M DataFrame :=
  systolic_pressure <-
    np_random_normal SYSTOLIC_PRESSURE SYSTOLIC_PRESSURE_STD n_patients ;;
  ratio <-
    np_random_normal SYSTOLIC_TO_DIASTOLIC_FACTOR
                     SYSTOLIC_TO_DIASTOLIC_FACTOR_STD n_patients ;;
  diastolic_pressure <- lift (np_mul systolic_pressure ratio) ;;
  (* body temperature *)
  daily_avg_body_temperature <-
    np_random_normal MEAN_BODY_TEMP MEAN_BODY_TEMP_STD n_patients ;;
  temp_noise <-
    np_random_normal BODY_TEMP_NOISE BODY_TEMP_NOISE_STD n_patients ;;
  body_temperature <- lift (np_add daily_avg_body_temperature temp_noise) ;;
  (* respiration rate *)
  daily_avg_respiration_rate <-
    np_random_normal MEAN_RESPIRATION_RATE MEAN_RESPIRATION_RATE_STD
                     n_patients ;;
  resp_noise <-
    np_random_normal RESPIRATION_RATE_NOISE_INFECTED
                     RESPIRATION_RATE_NOISE_STD_INFECTED n_patients ;;
  respiration_rate <- lift (np_add daily_avg_respiration_rate resp_noise) ;;
  (* pulse rate *)
  factor <-
    np_random_normal RESPIRATION_TO_PULSE_FACTOR
                     RESPIRATION_TO_PULSE_FACTOR_NOISE n_patients ;;
  daily_avg_pulse_rate <- lift (np_mul daily_avg_respiration_rate factor) ;;
  pulse_noise <-
    np_random_normal PULSE_RATE_NOISE_INFECTED PULSE_RATE_NOISE_STD_INFECTED
                     n_patients ;;
  pulse_rate <- lift (np_add daily_avg_pulse_rate pulse_noise) ;;
  infection <- lift (np_ones n_patients) ;;
  stacked <- lift (np_stack_axis1
                     [ systolic_pressure;
                       diastolic_pressure;
                       daily_avg_body_temperature;
                       body_temperature;
                       daily_avg_respiration_rate;
                       respiration_rate;
                       daily_avg_pulse_rate;
                       pulse_rate;
                       infection ]) ;;
  patients <- lift (pd_DataFrame stacked COLUMNS) ;;
  ret patients.

(** The spec's design note: one routine parametrised by the
    regime-specific noise parameters and the label.  Written from the
    spec, to be compared with the two source routines. *)
Record regime : Type := mk_regime {
  resp_noise_mean : float;
  resp_noise_std : float;
  pulse_noise_mean : float;
  pulse_noise_std : float;
  label : float
}.

Definition healthy_regime : regime :=
  {| resp_noise_mean := 0; resp_noise_std := 0.5;
     pulse_noise_mean := 0; pulse_noise_std := 4;
     label := 0 |}%float.

Definition infected_regime : regime :=
  {| resp_noise_mean := 1.5; resp_noise_std := 0.4;
     pulse_noise_mean := 10; pulse_noise_std := 5;
     label := 1 |}%float.

Definition regime_of (is_infected : bool) : regime :=
  if is_infected then infected_regime else healthy_regime.

Definition spec_generate_cohort (cfg : regime) (n_records : Z) : M DataFrame :=
  systolic_pressure <- np_random_normal 105%float 10%float n_records ;;
  ratio <- np_random_normal (2 / 3)%float 0.01%float n_records ;;
  diastolic_pressure <- lift (np_mul systolic_pressure ratio) ;;
  daily_avg_body_temperature <- np_random_normal 36.7%float 0.05%float n_records ;;
  temp_noise <- np_random_normal 0%float 0.01%float n_records ;;
  body_temperature <- lift (np_add daily_avg_body_temperature temp_noise) ;;
  daily_avg_respiration_rate <- np_random_normal 14%float 0.8%float n_records ;;
  resp_noise <-
    np_random_normal (resp_noise_mean cfg) (resp_noise_std cfg) n_records ;;
  respiration_rate <- lift (np_add daily_avg_respiration_rate resp_noise) ;;
  factor <- np_random_normal 5.5%float 0.2%float n_records ;;
  daily_avg_pulse_rate <- lift (np_mul daily_avg_respiration_rate factor) ;;
  pulse_noise <-
    np_random_normal (pulse_noise_mean cfg) (pulse_noise_std cfg) n_records ;;
  pulse_rate <- lift (np_add daily_avg_pulse_rate pulse_noise) ;;
  infection <- lift (np_full n_records (label cfg)) ;;
  stacked <- lift (np_stack_axis1
                     [ systolic_pressure;
                       diastolic_pressure;
                       daily_avg_body_temperature;
                       body_temperature;
                       daily_avg_respiration_rate;
                       respiration_rate;
                       daily_avg_pulse_rate;
                       pulse_rate;
                       infection ]) ;;
  patients <- lift (pd_DataFrame stacked COLUMNS) ;;
  ret patients.

(** The generator state after [j] array draws of [k] entries each. *)
Definition after_draws (j k : nat) (r : rng) : rng :=
  Nat.iter j (advance k) r.

(** The [i]-th standard-normal value of the [j]-th array draw. *)
Definition gauss_at (j k i : nat) (r : rng) : float :=
  nth i (fst (gauss_fill k (after_draws j k r))) 0%float.

(** Row [i] of a cohort of [k] records drawn from state [r], written out
    field by field. *)
Definition patient_row (cfg : regime) (k : nat) (r : rng) (i : nat)
  : list float :=
  (let systolic_pressure := 105 + 10 * gauss_at 0%nat k i r in
  let daily_avg_body_temperature := 36.7 + 0.05 * gauss_at 2%nat k i r in
  let daily_avg_respiration_rate := 14 + 0.8 * gauss_at 4%nat k i r in
  let daily_avg_pulse_rate :=
    daily_avg_respiration_rate * (5.5 + 0.2 * gauss_at 6%nat k i r) in
  [ systolic_pressure;
    systolic_pressure * (2 / 3 + 0.01 * gauss_at 1%nat k i r);
    daily_avg_body_temperature;
    daily_avg_body_temperature + (0 + 0.01 * gauss_at 3%nat k i r);
    daily_avg_respiration_rate;
    daily_avg_respiration_rate
    + (resp_noise_mean cfg + resp_noise_std cfg * gauss_at 5%nat k i r);
    daily_avg_pulse_rate;
    daily_avg_pulse_rate
    + (pulse_noise_mean cfg + pulse_noise_std cfg * gauss_at 7%nat k i r);
    label cfg ])%float.

(** The spec's [generate_cohort(n_records, is_infected)] names the pair of
    source routines, selected by the label flag. *)
Definition generate_cohort (n_records : Z) (is_infected : bool) : M DataFrame :=
  if is_infected then generate_infected n_records
  else generate_healthy n_records.

(** Cell 7, up to the split: the two generator calls, the concatenation
    into [data], the feature table [data.drop("infection", axis=1)] and the
    label vector [data["infection"].values].  The notebook fixes the counts
    to 900 and 100. *)
Definition build_dataset (n_healthy n_infected : Z) : M (DataFrame * array) :=
  healthy <- generate_healthy n_healthy ;;
  infected <- generate_infected n_infected ;;
  let data := reset_index (pd_concat healthy infected) in
  X <- lift (drop_column "infection" data) ;;
  y <- lift (column_values "infection" data) ;;
  ret (X, y).

(** Cell 3 seeds the generator once, then cell 7 builds the dataset. *)
Definition seeded_dataset (seed n_healthy n_infected : Z) : M (DataFrame * array) :=
  _ <- np_random_seed seed ;;
  build_dataset n_healthy n_infected.

End Generator.

Arguments M rng A : clear implicits.
Arguments ret {rng A} a _.
Arguments bind {rng A B} m k _.
Arguments lift {rng A} x _.
Arguments gauss_fill {rng} legacy_gauss k r.
Arguments advance {rng} legacy_gauss k r.
Arguments np_random_normal {rng} legacy_gauss loc scale size _.
Arguments np_random_seed {rng} init_by_seed s _.
Arguments generate_healthy {rng} legacy_gauss n_patients _.
Arguments generate_infected {rng} legacy_gauss n_patients _.
Arguments generate_cohort {rng} legacy_gauss n_records is_infected _.
Arguments spec_generate_cohort {rng} legacy_gauss cfg n_records _.
Arguments after_draws {rng} legacy_gauss j k r.
Arguments gauss_at {rng} legacy_gauss j k i r.
Arguments patient_row {rng} legacy_gauss cfg k r i.
Arguments build_dataset {rng} legacy_gauss n_healthy n_infected _.
Arguments seeded_dataset {rng} legacy_gauss init_by_seed seed n_healthy n_infected _.

(** ** Rounding a binary64 value to an integer *)

(** The integer fraction [num / 2^k] a finite binary64 value stands for. *)
Definition float_fraction (s : bool) (m : positive) (e : Z) : Z * Z :=
  let num := if s then Z.neg m else Z.pos m in
  if 0 <=? e then (num * 2 ^ e, 1) else (num, 2 ^ (- e)).

(** [math.ceil(x)]: [OverflowError] on an infinity, [ValueError] on NaN. *)
Definition math_ceil (x : float) : exception + Z :=
  match Prim2SF x with
  | S754_zero _ => inr 0
  | S754_infinity _ => inl OverflowError
  | S754_nan => inl ValueError
  | S754_finite s m e =>
      let (num, den) := float_fraction s m e in
      inr (- ((- num) / den))
  end.

(** [round(x)] with no digits argument: nearest integer, ties to even. *)
Definition py_round (x : float) : exception + Z :=
  match Prim2SF x with
  | S754_zero _ => inr 0
  | S754_infinity _ => inl OverflowError
  | S754_nan => inl ValueError
  | S754_finite s m e =>
      let (num, den) := float_fraction s m e in
      let q := num / den in
      let twice_rem := 2 * (num - q * den) in
      inr (if twice_rem <? den then q
           else if den <? twice_rem then q + 1
           else if Z.even q then q else q + 1)
  end.

(** [float(n)] for a row count (counts stay far below 2^63). *)
Definition float_of_nat (n : nat) : float :=
  PrimFloat.of_uint63 (Uint63.of_Z (Z.of_nat n)).

(** ** scikit-learn's [train_test_split]

    Library code, not part of the repository: modelled after
    [sklearn.model_selection._split] for the arguments the notebook passes (a
    float [test_size], no [train_size], an integer [random_state], shuffling
    on, no stratification). *)

(** [_validate_shuffle_split(n_samples, test_size, train_size=None)] with a
    float [test_size], as [train_test_split] calls it: the fraction must lie
    strictly between 0 and 1, the test count is the ceiling of
    [test_size * n_samples], the train count the complement. *)
Definition validate_shuffle_split (n_samples : nat) (test_size : float)
  : exception + (Z * Z) :=
  if (test_size <=? 0)%float || (1 <=? test_size)%float then inl ValueError
  else
    match math_ceil (test_size * float_of_nat n_samples)%float with
    | inl e => inl e
    | inr n_test =>
        let n_train := Z.of_nat n_samples - n_test in
        if Z.of_nat n_samples <? n_train + n_test then inl ValueError
        else if n_train =? 0 then inl ValueError
        else inr (n_train, n_test)
    end.

(** [_validate_shuffle_split(n_samples, test_size, train_size)] with both
    sizes integer counts, as [ShuffleSplit] calls it on the counts computed
    above: each must lie strictly between 0 and [n_samples]. *)
Definition validate_shuffle_split_counts (n_samples : nat) (test_size train_size : Z)
  : exception + (Z * Z) :=
  let n := Z.of_nat n_samples in
  if (n <=? test_size) || (test_size <=? 0) then inl ValueError
  else if (n <=? train_size) || (train_size <=? 0) then inl ValueError
  else if n <? train_size + test_size then inl ValueError
  else if train_size =? 0 then inl ValueError
  else inr (train_size, test_size).

(** Python's [l[lo:hi]] for integer bounds: a negative bound counts from the
    end, and both are clipped to the list. *)
Definition clip (len i : Z) : Z :=
  Z.max 0 (Z.min len (if i <? 0 then i + len else i)).

Definition py_slice {A : Type} (lo hi : Z) (l : list A) : list A :=
  let len := Z.of_nat (length l) in
  let a := clip len lo in
  let b := clip len hi in
  firstn (Z.to_nat (b - a)) (skipn (Z.to_nat a) l).

(** Positional selection [a[indices]]: [IndexError] out of range. *)
Fixpoint take {A : Type} (indices : list nat) (l : list A) : exception + list A :=
  match indices with
  | [] => inr []
  | i :: rest =>
      match nth_error l i, take rest l with
      | Some x, inr xs => inr (x :: xs)
      | None, _ => inl IndexError
      | _, inl e => inl e
      end
  end.

(** [X.iloc[indices]]: rows and their labels are selected together. *)
Definition iloc (indices : list nat) (df : DataFrame) : exception + DataFrame :=
  match take indices (values df), take indices (index df) with
  | inr vs, inr ix => inr {| columns := columns df; index := ix; values := vs |}
  | inl e, _ => inl e
  | _, inl e => inl e
  end.

Section Split.

(** [RandomState(seed).permutation(n)]: a shuffled [arange(n)] drawn from
    a generator private to the call. *)
Variable permutation : Z -> nat -> list nat.

(** [ShuffleSplit(test_size=n_test, train_size=n_train,
    random_state=seed)]: the first [n_test] entries of the permutation are
    the test rows, the next [n_train] the train rows. *)
Definition shuffle_split (n_samples : nat) (train_size test_size : Z) (seed : Z)
  : exception + (list nat * list nat) :=
  match validate_shuffle_split_counts n_samples test_size train_size with
  | inl e => inl e
  | inr (n_train, n_test) =>
      let perm := permutation seed n_samples in
      let ind_test := py_slice 0 n_test perm in
      let ind_train := py_slice n_test (n_test + n_train) perm in
      inr (ind_train, ind_test)
  end.

Definition train_test_split (X : DataFrame) (y : array)
           (test_size : float) (random_state : Z)
  : exception + (DataFrame * DataFrame * array * array) :=
  let n_samples := nrows X in
  if negb (length y =? n_samples)%nat then inl ValueError
  else
    match validate_shuffle_split n_samples test_size with
    | inl e => inl e
    | inr (n_train, n_test) =>
        match shuffle_split n_samples n_train n_test random_state with
        | inl e => inl e
        | inr (train, test) =>
            match iloc train X, iloc test X, take train y, take test y with
            | inr X_train, inr X_test, inr y_train, inr y_test =>
                inr (X_train, X_test, y_train, y_test)
            | inl e, _, _, _ => inl e
            | _, inl e, _, _ => inl e
            | _, _, inl e, _ => inl e
            | _, _, _, inl e => inl e
            end
        end
    end.

End Split.

(** Cell 7 as a whole: the dataset of 900 healthy and 100 infected records,
    split with [test_size=0.2] and [random_state=0]. *)
Definition notebook_cell7 {rng : Type} (legacy_gauss : rng -> float * rng)
           (permutation : Z -> nat -> list nat)
  : M rng (DataFrame * DataFrame * array * array) :=
  bind (build_dataset legacy_gauss 900 100)
       (fun Xy => lift (train_test_split permutation (fst Xy) (snd Xy) 0.2 0)).

(** ** A small concrete generator, for running the model *)

Module Toy.
(** A counter as generator state; the "Gaussian" draws walk through
    -1, 0, 1, -1, ... *)
Definition rng : Type := Z.
Definition legacy_gauss (r : rng) : float * rng :=
  ((PrimFloat.of_uint63 (Uint63.of_Z (r mod 3)) - 1)%float, r + 1).
Definition init_by_seed (s : Z) : rng := Z.abs s.
Definition permutation (seed : Z) (n : nat) : list nat := rev (seq 0 n).
End Toy.

(** A table of six one-column rows and its labels, for running the split. *)
Definition six_rows : DataFrame :=
  {| columns := ["x"%string];
     index := [0; 1; 2; 3; 4; 5];
     values := [[10]; [11]; [12]; [13]; [14]; [15]]%float |}.

Definition six_labels : array := [0; 0; 0; 0; 1; 1]%float.

(** Four rows of two features with their labels, for running the plots'
    data selection. *)
Definition four_points : DataFrame :=
  {| columns := ["pulse_rate"; "respiration_rate"]%string;
     index := [0; 1; 2; 3];
     values := [[70; 14]; [95; 17]; [72; 13]; [99; 16]]%float |}.

Definition four_labels : array := [0; 1; 0; 1]%float.

(** ** The rest of the notebook's data handling *)

(** Cell 7, first statement: [data], the two cohorts concatenated and
    relabelled. *)
Definition build_data {rng : Type} (legacy_gauss : rng -> float * rng)
           (n_healthy n_infected : Z) : M rng DataFrame :=
  bind (generate_healthy legacy_gauss n_healthy) (fun healthy =>
  bind (generate_infected legacy_gauss n_infected) (fun infected =>
  ret (reset_index (pd_concat healthy infected)))).

(** Cell 32: [data.columns[:-1]], the names the importances are paired
    with. *)
Definition importance_names (data : DataFrame) : list string :=
  py_slice 0 (-1) (columns data).

(** [y == v] on an array: the element-wise IEEE comparison. *)
Definition np_equal (y : array) (v : float) : list bool :=
  map (fun x => (x =? v)%float) y.

(** [X.loc[mask, name]] with a boolean array as row selector: [KeyError]
    for an unknown column, [IndexError] when the mask is not one entry per
    row. *)
Definition loc_mask (mask : list bool) (name : string) (df : DataFrame)
  : exception + array :=
  match column_values name df with
  | inl e => inl e
  | inr col =>
      if (length mask =? nrows df)%nat then inr (select mask col)
      else inl IndexError
  end.

(** [X[mask]] with a boolean array: the selected rows with their labels;
    [ValueError] when the mask is not one entry per row. *)
Definition getitem_mask (mask : list bool) (df : DataFrame)
  : exception + DataFrame :=
  if (length mask =? nrows df)%nat
  then inr {| columns := columns df;
              index := select mask (index df);
              values := select mask (values df) |}
  else inl ValueError.

(** Cell 9, [plot_histogram]: the values of its two series expressions, the
    healthy series [X.loc[y==0, feature]] and the infected series
    [X.loc[y==1, feature]], which it passes to [plt.hist]. *)
Definition plot_histogram_series (X : DataFrame) (y : array) (feature : string)
  : exception + (array * array) :=
  match loc_mask (np_equal y 0) feature X with
  | inl e => inl e
  | inr healthy =>
      match loc_mask (np_equal y 1) feature X with
      | inl e => inl e
      | inr infected => inr (healthy, infected)
      end
  end.

(** Cell 9, [plot_scatter]: the values of the coordinate expressions it
    passes to its two [plt.plot] calls, healthy then infected, each as
    (x values, y values). *)
Definition plot_scatter_series (X : DataFrame) (y : array)
           (feature1 feature2 : string)
  : exception + ((array * array) * (array * array)) :=
  match loc_mask (np_equal y 0) feature1 X,
        loc_mask (np_equal y 0) feature2 X with
  | inl e, _ => inl e
  | _, inl e => inl e
  | inr x0, inr y0 =>
      match loc_mask (np_equal y 1) feature1 X,
            loc_mask (np_equal y 1) feature2 X with
      | inl e, _ => inl e
      | _, inl e => inl e
      | inr x1, inr y1 => inr ((x0, y0), (x1, y1))
      end
  end.

(** [s.split(sep)] for a one-character separator: the pieces between the
    separators, empty pieces included. *)
Fixpoint str_split (sep : ascii) (s : string) : list string :=
  match s with
  | EmptyString => [EmptyString]
  | String c s' =>
      if Ascii.eqb c sep then EmptyString :: str_split sep s'
      else match str_split sep s' with
           | [] => [String c EmptyString]
           | piece :: pieces => String c piece :: pieces
           end
  end.

(** Cell 9, [plot_histogram]: the axis label [" ".join(feature.split("_"))]. *)
Definition histogram_xlabel (feature : string) : string :=
  String.concat " " (str_split "_" feature).

(** A string with every underscore turned into a space. *)
Fixpoint underscores_to_spaces (s : string) : string :=
  match s with
  | EmptyString => EmptyString
  | String c s' =>
      String (if Ascii.eqb c "_" then " "%char else c) (underscores_to_spaces s')
  end.

(** [np.where(mask)[0]]: the positions that hold [True], ascending. *)
Fixpoint np_where_from (start : nat) (mask : list bool) : list nat :=
  match mask with
  | [] => []
  | b :: mask' =>
      if b then start :: np_where_from (S start) mask'
      else np_where_from (S start) mask'
  end.

Definition np_where (mask : list bool) : list nat := np_where_from 0 mask.

(** Cells 42 and 44: [np.where(y == v)[0][0]], the first position whose
    entry equals [v]; [IndexError] when there is none. *)
Definition np_where_first (y : array) (v : float) : exception + nat :=
  match np_where (np_equal y v) with
  | [] => inl IndexError
  | i :: _ => inr i
  end.

(** Cell 44 run after cell 7: the position of the first healthy test row. *)
Definition notebook_healthy_index {rng : Type} (legacy_gauss : rng -> float * rng)
           (permutation : Z -> nat -> list nat) : M rng nat :=
  bind (notebook_cell7 legacy_gauss permutation)
       (fun split => lift (np_where_first (snd split) 0)).

(** Cell 27: the test rows handed to [predict_proba] for each class,
    [X_test[y_test==0]] and [X_test[y_test==1]]. *)
Definition test_rows_by_class (X_test : DataFrame) (y_test : array)
  : exception + (DataFrame * DataFrame) :=
  match getitem_mask (np_equal y_test 0) X_test with
  | inl e => inl e
  | inr healthy =>
      match getitem_mask (np_equal y_test 1) X_test with
      | inl e => inl e
      | inr infected => inr (healthy, infected)
      end
  end.

(** * Properties *)

(** ** Arrays *)

Lemma zip_with_length f a b :
  length a = length b -> length (zip_with f a b) = length a.
Proof.
  revert b; induction a as [|x a IH]; intros [|y b] H; simpl in *;
    try discriminate; auto.
Qed.

Lemma zip_with_nth f a b i d :
  length a = length b -> (i < length a)%nat ->
  nth i (zip_with f a b) d = f (nth i a d) (nth i b d).
Proof.
  revert b i; induction a as [|x a IH]; intros [|y b] i Hl Hi; simpl in *;
    try discriminate; try lia.
  destruct i; [reflexivity | apply IH; lia].
Qed.

Lemma broadcast_same_length f a b :
  length a = length b -> broadcast f a b = inr (zip_with f a b).
Proof.
  intros H. unfold broadcast. rewrite H, Nat.eqb_refl. reflexivity.
Qed.

Lemma np_full_ok n v : 0 <= n -> np_full n v = inr (repeat v (Z.to_nat n)).
Proof.
  intros H. unfold np_full.
  destruct (Z.ltb_spec n 0); [lia | reflexivity].
Qed.

Lemma np_full_negative n v : n < 0 -> np_full n v = inl ValueError.
Proof.
  intros H. unfold np_full.
  destruct (Z.ltb_spec n 0); [reflexivity | lia].
Qed.

Lemma np_stack_axis1_ok a rest :
  Forall (fun b => length b = length a) rest ->
  np_stack_axis1 (a :: rest)
  = inr {| shape := (length a, S (length rest));
           rows := map (fun i => map (fun c => nth i c 0%float) (a :: rest))
                       (seq 0 (length a)) |}.
Proof.
  intros H. unfold np_stack_axis1.
  replace (forallb _ rest) with true; [reflexivity|].
  symmetry. apply forallb_forall. intros b Hb.
  rewrite Forall_forall in H. apply Nat.eqb_eq. auto.
Qed.

Lemma map_seq_ext {A} (f g : nat -> A) s k :
  (forall i, (s <= i < s + k)%nat -> f i = g i) ->
  map f (seq s k) = map g (seq s k).
Proof.
  intros H. apply map_ext_in. intros i Hi. apply in_seq in Hi. auto.
Qed.

(** ** Binary64 arithmetic on bounded values

    The float specification's rounding keeps a bounded magnitude bounded:
    products and sums of finite values of moderate size are finite, never
    NaN. *)

Lemma digits2_pos_size p : digits2_pos p = Pos.size p.
Proof. induction p; cbn; congruence. Qed.

Lemma digits_bounds p :
  2 ^ (Z.pos (digits2_pos p) - 1) <= Z.pos p < 2 ^ Z.pos (digits2_pos p).
Proof.
  rewrite digits2_pos_size.
  induction p as [p IH | p IH |]; cbn [Pos.size]; rewrite ?Pos2Z.inj_succ.
  - replace (Z.succ (Z.pos (Pos.size p)) - 1) with (Z.succ (Z.pos (Pos.size p) - 1)) by lia.
    rewrite !Z.pow_succ_r by lia. lia.
  - replace (Z.succ (Z.pos (Pos.size p)) - 1) with (Z.succ (Z.pos (Pos.size p) - 1)) by lia.
    rewrite !Z.pow_succ_r by lia. lia.
  - cbn. lia.
Qed.

Lemma digits_le p k : 0 <= k -> Z.pos p < 2 ^ k -> Z.pos (digits2_pos p) <= k.
Proof.
  intros Hk H. destruct (digits_bounds p) as [Hlo _].
  destruct (Z.le_gt_cases (Z.pos (digits2_pos p)) k) as [|Hgt]; [assumption|].
  exfalso. assert (2 ^ k <= 2 ^ (Z.pos (digits2_pos p) - 1)) by (apply Z.pow_le_mono_r; lia).
  lia.
Qed.

Lemma shr_1_div2 mrs :
  0 <= shr_m mrs -> shr_m (shr_1 mrs) = shr_m mrs / 2.
Proof.
  destruct mrs as [m r s]. cbn [shr_m]. intros Hm.
  destruct m as [|[p|p|]|p]; cbn [shr_1 shr_m]; try lia; try reflexivity.
  - apply Z.div_unique with 1; lia.
  - apply Z.div_unique with 0; lia.
Qed.

Lemma iter_shr_1_div p : forall mrs,
  0 <= shr_m mrs ->
  shr_m (iter_pos shr_1 p mrs) = shr_m mrs / 2 ^ Z.pos p.
Proof.
  induction p as [p IH | p IH |]; intros mrs Hm; cbn [iter_pos].
  - assert (H1 : 0 <= shr_m (shr_1 mrs))
      by (rewrite shr_1_div2 by assumption; apply Z.div_pos; lia).
    assert (H2 : 0 <= shr_m (iter_pos shr_1 p (shr_1 mrs)))
      by (rewrite IH by assumption; apply Z.div_pos; [assumption | apply Z.pow_pos_nonneg; lia]).
    rewrite IH, IH, shr_1_div2 by assumption.
    rewrite !Z.div_div by (try apply Z.pow_pos_nonneg; lia).
    f_equal.
    replace (Z.pos p~1) with (1 + Z.pos p + Z.pos p) by lia.
    rewrite !Z.pow_add_r by lia. lia.
  - assert (H2 : 0 <= shr_m (iter_pos shr_1 p mrs))
      by (rewrite IH by assumption; apply Z.div_pos; [assumption | apply Z.pow_pos_nonneg; lia]).
    rewrite IH, IH by assumption.
    rewrite !Z.div_div by (try apply Z.pow_pos_nonneg; lia).
    f_equal.
    replace (Z.pos p~0) with (Z.pos p + Z.pos p) by lia.
    rewrite !Z.pow_add_r by lia. lia.
  - rewrite shr_1_div2 by assumption. reflexivity.
Qed.

Lemma Zdigits2_nonneg_bound m k :
  0 <= m -> 0 <= k -> m < 2 ^ k -> Zdigits2 m <= k.
Proof.
  intros Hm Hk H. destruct m as [|p|p]; cbn [Zdigits2]; [lia | | lia].
  now apply digits_le.
Qed.

Lemma Zdigits2_upper m : 0 <= m -> m < 2 ^ Zdigits2 m.
Proof.
  intros Hm. destruct m as [|p|p]; cbn [Zdigits2]; [cbn; lia | | lia].
  apply digits_bounds.
Qed.

Lemma Zdigits2_pos m : 0 <= Zdigits2 m.
Proof. destruct m; cbn; lia. Qed.

Lemma Zdigits2_div m p :
  0 <= m -> 0 < m / 2 ^ Z.pos p -> Zdigits2 (m / 2 ^ Z.pos p) <= Zdigits2 m - Z.pos p.
Proof.
  intros Hm Hq.
  assert (Hp : 0 < 2 ^ Z.pos p) by (apply Z.pow_pos_nonneg; lia).
  assert (Hup := Zdigits2_upper m Hm).
  assert (Hge : 2 ^ Z.pos p <= m).
  { destruct (Z.le_gt_cases (2 ^ Z.pos p) m); [assumption|].
    rewrite Z.div_small in Hq by lia. lia. }
  assert (Hd : Z.pos p < Zdigits2 m).
  { destruct (Z.lt_ge_cases (Z.pos p) (Zdigits2 m)); [assumption|].
    assert (2 ^ Zdigits2 m <= 2 ^ Z.pos p) by (apply Z.pow_le_mono_r; lia). lia. }
  apply Zdigits2_nonneg_bound; [lia | lia |].
  apply Z.div_lt_upper_bound; [assumption|].
  rewrite <- Z.pow_add_r by lia.
  replace (Z.pos p + (Zdigits2 m - Z.pos p)) with (Zdigits2 m) by lia. assumption.
Qed.

Lemma Zdigits2_succ m : 0 <= m -> Zdigits2 (m + 1) <= Zdigits2 m + 1.
Proof.
  intros Hm. apply Zdigits2_nonneg_bound; [lia | pose proof (Zdigits2_pos m); lia |].
  pose proof (Zdigits2_upper m Hm). pose proof (Zdigits2_pos m).
  rewrite Z.pow_add_r by lia. lia.
Qed.

Lemma round_nearest_even_bounds m l :
  0 <= m -> m <= round_nearest_even m l <= m + 1.
Proof. intros Hm. destruct l as [|[| |]]; cbn; try destruct (Z.even m); lia. Qed.

Lemma fexp64 x : fexp prec emax x = Z.max (x - 53) (-1074).
Proof. reflexivity. Qed.

Lemma shr_fexp_cases m e l :
  0 <= m ->
  let r := shr_fexp prec emax m e l in
  0 <= shr_m (fst r)
  /\ ((fexp prec emax (Zdigits2 m + e) <= e
       /\ r = (shr_record_of_loc m l, e))
      \/ (e < fexp prec emax (Zdigits2 m + e)
          /\ snd r = fexp prec emax (Zdigits2 m + e)
          /\ (shr_m (fst r) = 0
              \/ 0 < shr_m (fst r)
                 /\ Zdigits2 (shr_m (fst r)) + snd r <= Zdigits2 m + e))).
Proof.
  intros Hm r. unfold shr_fexp, shr in r.
  assert (Hrec : shr_m (shr_record_of_loc m l) = m)
    by (destruct l as [|[| |]]; reflexivity).
  destruct (fexp prec emax (Zdigits2 m + e) - e) as [|p|p] eqn:En; subst r; cbn [fst snd].
  - split; [rewrite Hrec; exact Hm|]. left. split; [lia | reflexivity].
  - assert (Hq : shr_m (iter_pos shr_1 p (shr_record_of_loc m l)) = m / 2 ^ Z.pos p)
      by (rewrite iter_shr_1_div by (rewrite Hrec; exact Hm); now rewrite Hrec).
    assert (Hp : 0 < 2 ^ Z.pos p) by (apply Z.pow_pos_nonneg; lia).
    assert (Hq0 : 0 <= m / 2 ^ Z.pos p) by (apply Z.div_pos; lia).
    rewrite Hq. split; [exact Hq0|]. right.
    split; [lia|]. split; [lia|].
    destruct (Z.eq_dec (m / 2 ^ Z.pos p) 0) as [H0 | H0]; [left; exact H0|].
    right. split; [lia|].
    pose proof (Zdigits2_div m p Hm ltac:(lia)). lia.
  - split; [rewrite Hrec; exact Hm|]. left. split; [lia | reflexivity].
Qed.

Lemma Zdigits2_pos_ge1 p : 1 <= Z.pos (digits2_pos p).
Proof. lia. Qed.

Lemma round_aux_below s mx ex E :
  Z.pos (digits2_pos mx) + ex <= E -> -1074 <= E -> E <= 970 ->
  sf_below (E + 1) (binary_round_aux prec emax s (Z.pos mx) ex loc_Exact) = true.
Proof.
  intros Hin Hlo Hhi. unfold binary_round_aux.
  pose proof (shr_fexp_cases (Z.pos mx) ex loc_Exact ltac:(lia)) as H1.
  cbv zeta in H1.
  destruct (shr_fexp prec emax (Z.pos mx) ex loc_Exact) as [mrs' e'].
  cbn [fst snd] in H1. destruct H1 as [Hm' H1].
  set (m1 := round_nearest_even (shr_m mrs') (loc_of_shr_record mrs')).
  assert (Hm1 : 0 <= m1 /\ Zdigits2 m1 + e' <= E + 1 /\ e' <= 969).
  { pose proof (round_nearest_even_bounds (shr_m mrs') (loc_of_shr_record mrs') Hm')
      as Hr. fold m1 in Hr.
    cbn [Zdigits2] in H1. rewrite fexp64 in H1.
    destruct H1 as [[Hle Heq] | (Hlt & He' & Hcase)].
    - injection Heq as -> ->. subst m1.
      cbn [round_nearest_even loc_of_shr_record shr_m shr_record_of_loc Zdigits2].
      lia.
    - split; [lia|]. split; [|lia].
      destruct Hcase as [H0 | [Hpos Hd]].
      + assert (Hc : m1 = 0 \/ m1 = 1) by lia.
        destruct Hc as [-> | ->]; cbn [Zdigits2 digits2_pos]; lia.
      + assert (Hc : m1 = shr_m mrs' \/ m1 = shr_m mrs' + 1) by lia.
        destruct Hc as [-> | ->]; [lia|].
        pose proof (Zdigits2_succ (shr_m mrs') Hm'). lia. }
  destruct Hm1 as (Hm1 & Hd1 & He1).
  pose proof (shr_fexp_cases m1 e' loc_Exact Hm1) as H2. cbv zeta in H2.
  destruct (shr_fexp prec emax m1 e' loc_Exact) as [mrs'' e''].
  cbn [fst snd] in H2. destruct H2 as [Hm'' H2]. rewrite fexp64 in H2.
  destruct (shr_m mrs'') as [|m|m] eqn:Em; [reflexivity | | lia].
  assert (Hfin : Z.pos (digits2_pos m) + e'' <= E + 1 /\ e'' <= 971).
  { change (Z.pos (digits2_pos m)) with (Zdigits2 (Z.pos m)).
    destruct H2 as [[Hle Heq] | (Hlt & He'' & Hcase)].
    - injection Heq as -> ->. cbn [shr_record_of_loc shr_m] in Em.
      rewrite Em in *. lia.
    - destruct Hcase as [H0 | [Hpos Hd]]; [lia|]. lia. }
  destruct Hfin as [Hb He].
  unfold prec, emax. change (1024 - 53) with 971.
  destruct (Z.leb_spec e'' 971); [|lia].
  cbn [sf_below]. apply Z.leb_le. exact Hb.
Qed.

Lemma sf_below_mono E E' x : E <= E' -> sf_below E x = true -> sf_below E' x = true.
Proof.
  intros HE. destruct x; cbn; try easy.
  intros H. apply Z.leb_le in H. apply Z.leb_le. lia.
Qed.

Lemma digits_mul mx my :
  Z.pos (digits2_pos (mx * my))
  <= Z.pos (digits2_pos mx) + Z.pos (digits2_pos my).
Proof.
  apply digits_le; [lia|].
  rewrite Pos2Z.inj_mul, Z.pow_add_r by lia.
  destruct (digits_bounds mx) as [_ Hx]. destruct (digits_bounds my) as [_ Hy].
  apply Z.mul_lt_mono_nonneg; lia.
Qed.

Lemma SFmul_below Ex Ey x y :
  sf_below Ex x = true -> sf_below Ey y = true ->
  -1074 <= Ex + Ey -> Ex + Ey <= 970 ->
  sf_below (Ex + Ey + 1) (SFmul prec emax x y) = true.
Proof.
  intros Hx Hy Hlo Hhi.
  destruct x as [sx|sx| |sx mx ex], y as [sy|sy| |sy my ey];
    cbn [sf_below] in Hx, Hy; try discriminate; cbn [SFmul]; try reflexivity.
  apply Z.leb_le in Hx, Hy.
  apply round_aux_below; [|assumption|assumption].
  pose proof (digits_mul mx my). lia.
Qed.

Lemma iter_xO_pow m d : Z.pos (Pos.iter xO m d) = Z.pos m * 2 ^ Z.pos d.
Proof.
  induction d as [|d IH] using Pos.peano_ind.
  - cbn [Pos.iter]. lia.
  - rewrite Pos.iter_succ, Pos2Z.inj_xO, IH, Pos2Z.inj_succ, Z.pow_succ_r by lia.
    lia.
Qed.

Lemma shl_align_digits mx ex ez :
  let r := shl_align mx ex ez in
  snd r = Z.min ex ez
  /\ Z.pos (digits2_pos (fst r)) + snd r <= Z.pos (digits2_pos mx) + ex.
Proof.
  unfold shl_align. destruct (ez - ex) as [|d|d] eqn:Ed; cbn [fst snd].
  - split; lia.
  - split; lia.
  - split; [lia|].
    assert (Hd : Z.pos d = ex - ez) by lia.
    assert (Z.pos (digits2_pos (Pos.iter xO mx d)) <= Z.pos (digits2_pos mx) + Z.pos d);
      [|lia].
    apply digits_le; [lia|].
    rewrite iter_xO_pow, Z.pow_add_r by lia.
    destruct (digits_bounds mx) as [_ Hx].
    apply Z.mul_lt_mono_pos_r; [apply Z.pow_pos_nonneg; lia | exact Hx].
Qed.

Lemma binary_round_below s m e E :
  Z.pos (digits2_pos m) + e <= E -> -1074 <= E -> E <= 970 ->
  sf_below (E + 1) (binary_round prec emax s m e) = true.
Proof.
  intros Hin Hlo Hhi. unfold binary_round.
  pose proof (shl_align_digits m e (fexp prec emax (Z.pos (digits2_pos m) + e))) as H.
  cbv zeta in H.
  destruct (shl_align m e (fexp prec emax (Z.pos (digits2_pos m) + e))) as [mz ez].
  cbn [fst snd] in H. destruct H as [_ H].
  apply round_aux_below; lia.
Qed.

Lemma SFadd_below Ex Ey x y :
  sf_below Ex x = true -> sf_below Ey y = true ->
  -1074 <= Z.max Ex Ey + 1 -> Z.max Ex Ey + 1 <= 970 ->
  sf_below (Z.max Ex Ey + 2) (SFadd prec emax x y) = true.
Proof.
  intros Hx Hy Hlo Hhi.
  destruct x as [sx|sx| |sx mx ex], y as [sy|sy| |sy my ey];
    cbn [sf_below] in Hx, Hy; try discriminate; cbn [SFadd].
  - destruct sx, sy; reflexivity.
  - cbn [sf_below]. apply Z.leb_le in Hy. apply Z.leb_le. lia.
  - cbn [sf_below]. apply Z.leb_le in Hx. apply Z.leb_le. lia.
  - apply Z.leb_le in Hx, Hy.
    set (ez := Z.min ex ey).
    pose proof (shl_align_digits mx ex ez) as Hax.
    pose proof (shl_align_digits my ey ez) as Hay.
    cbv zeta in Hax, Hay.
    destruct (shl_align mx ex ez) as [mx' ex'], (shl_align my ey ez) as [my' ey'].
    cbn [fst snd] in *. destruct Hax as [Hex' Hdx], Hay as [Hey' Hdy].
    assert (Hex'' : ex' = ez) by (unfold ez in *; lia).
    assert (Hey'' : ey' = ez) by (unfold ez in *; lia).
    subst ex' ey'.
    set (E := Z.max Ex Ey) in *.
    destruct (digits_bounds mx') as [_ Hbx]. destruct (digits_bounds my') as [_ Hby].
    assert (Hpx : Z.pos mx' < 2 ^ (E - ez)).
    { eapply Z.lt_le_trans; [exact Hbx|]. apply Z.pow_le_mono_r; lia. }
    assert (Hpy : Z.pos my' < 2 ^ (E - ez)).
    { eapply Z.lt_le_trans; [exact Hby|]. apply Z.pow_le_mono_r; lia. }
    assert (Hpow : 2 ^ (E - ez + 1) = 2 * 2 ^ (E - ez))
      by (rewrite Z.pow_add_r by lia; lia).
    unfold binary_normalize.
    destruct (cond_Zopp sx (Z.pos mx') + cond_Zopp sy (Z.pos my')) as [|m|m] eqn:Es;
      [reflexivity | |].
    + replace (E + 2) with (E + 1 + 1) by lia.
      apply binary_round_below; [|lia|lia].
      assert (Z.pos (digits2_pos m) <= E - ez + 1); [|lia].
      apply digits_le; [lia|]. rewrite Hpow.
      destruct sx, sy; cbn [cond_Zopp] in Es; lia.
    + replace (E + 2) with (E + 1 + 1) by lia.
      apply binary_round_below; [|lia|lia].
      assert (Z.pos (digits2_pos m) <= E - ez + 1); [|lia].
      apply digits_le; [lia|]. rewrite Hpow.
      destruct sx, sy; cbn [cond_Zopp] in Es; lia.
Qed.

Lemma mul_finite_below Ex Ey x y :
  finite_below Ex x = true -> finite_below Ey y = true ->
  -1074 <= Ex + Ey -> Ex + Ey <= 970 ->
  finite_below (Ex + Ey + 1) (x * y)%float = true.
Proof.
  intros. unfold finite_below. rewrite mul_spec. now apply SFmul_below.
Qed.

Lemma add_finite_below Ex Ey x y :
  finite_below Ex x = true -> finite_below Ey y = true ->
  -1074 <= Z.max Ex Ey + 1 -> Z.max Ex Ey + 1 <= 970 ->
  finite_below (Z.max Ex Ey + 2) (x + y)%float = true.
Proof.
  intros. unfold finite_below. rewrite add_spec. now apply SFadd_below.
Qed.

Lemma finite_below_not_nan E x : finite_below E x = true -> is_nan x = false.
Proof.
  unfold finite_below, is_nan. rewrite eqb_spec.
  destruct (Prim2SF x) as [s|s| |s m e]; cbn; try discriminate; intros _.
  - reflexivity.
  - unfold SFeqb, SFcompare.
    rewrite Z.compare_refl, Pos.compare_cont_refl.
    destruct s; reflexivity.
Qed.

Lemma finite_below_not_infinity E x :
  finite_below E x = true -> is_infinity x = false.
Proof.
  unfold finite_below, is_infinity. rewrite eqb_spec, abs_spec.
  destruct (Prim2SF x) as [s|s| |s m e]; cbn [sf_below]; try discriminate;
    intros _; reflexivity.
Qed.

(** ** The sampling routines *)

Section GeneratorFacts.

Variable rng : Type.
Variable legacy_gauss : rng -> float * rng.


Lemma gauss_fill_length k r : length (fst (gauss_fill legacy_gauss k r)) = k.
Proof.
  revert r; induction k as [|k IH]; intros r; simpl; [reflexivity|].
  destruct (legacy_gauss r) as [g r1].
  specialize (IH r1). destruct (gauss_fill legacy_gauss k r1) as [gs r2].
  simpl in *. now rewrite IH.
Qed.

Lemma np_random_normal_ok loc scale n r :
  0 <= n -> negative_scale scale = false ->
  np_random_normal legacy_gauss loc scale n r
  = inr (map (fun g => (loc + scale * g)%float)
             (fst (gauss_fill legacy_gauss (Z.to_nat n) r)),
         advance legacy_gauss (Z.to_nat n) r).
Proof.
  intros H Hs. unfold np_random_normal, advance. rewrite Hs.
  destruct (Z.ltb_spec n 0); [lia|].
  destruct (gauss_fill legacy_gauss (Z.to_nat n) r); reflexivity.
Qed.

Lemma np_random_normal_negative loc scale n r :
  n < 0 -> np_random_normal legacy_gauss loc scale n r = inl ValueError.
Proof.
  intros H. unfold np_random_normal.
  destruct (negative_scale scale); [reflexivity|].
  destruct (Z.ltb_spec n 0); [reflexivity | lia].
Qed.

Lemma normal_length loc scale k r :
  length (map (fun g => (loc + scale * g)%float) (fst (gauss_fill legacy_gauss k r))) = k.
Proof. rewrite length_map. apply gauss_fill_length. Qed.

Lemma normal_nth loc scale k r i :
  (i < k)%nat ->
  nth i (map (fun g => (loc + scale * g)%float) (fst (gauss_fill legacy_gauss k r))) 0%float
  = (loc + scale * nth i (fst (gauss_fill legacy_gauss k r)) 0)%float.
Proof.
  intros Hi.
  rewrite (nth_indep _ 0%float (loc + scale * 0)%float)
    by (rewrite normal_length; exact Hi).
  apply (map_nth (fun g => (loc + scale * g)%float)).
Qed.

Lemma lift_inr {A} (a : A) (r : rng) : lift (inr a) r = inr (a, r).
Proof. reflexivity. Qed.

Lemma nth_repeat_lt (v d : float) k i : (i < k)%nat -> nth i (repeat v k) d = v.
Proof.
  revert i; induction k as [|k IH]; intros i Hi; [lia|].
  destruct i; simpl; [reflexivity | apply IH; lia].
Qed.

(** Lengths of the arrays a run builds: all are the record count. *)
Ltac array_length :=
  repeat first [ rewrite normal_length
               | rewrite repeat_length
               | rewrite zip_with_length by array_length ];
  try reflexivity.

(** Closed form of a whole run of the parametrised routine. *)
Lemma spec_generate_cohort_run cfg n r :
  0 <= n ->
  negative_scale (resp_noise_std cfg) = false ->
  negative_scale (pulse_noise_std cfg) = false ->
  spec_generate_cohort legacy_gauss cfg n r
  = inr ({| columns := COLUMNS;
            index := map Z.of_nat (seq 0 (Z.to_nat n));
            values := map (patient_row legacy_gauss cfg (Z.to_nat n) r)
                          (seq 0 (Z.to_nat n)) |},
         after_draws legacy_gauss 8 (Z.to_nat n) r).
Proof.
  intros Hn Hresp Hpulse. unfold spec_generate_cohort, bind.
  set (k := Z.to_nat n).
  repeat (rewrite np_random_normal_ok
            by first [exact Hn | reflexivity | assumption];
          fold k; cbv beta iota;
          try (unfold np_mul, np_add;
               rewrite broadcast_same_length by array_length;
               rewrite lift_inr; cbv beta iota)).
  rewrite np_full_ok by exact Hn. fold k. rewrite lift_inr. cbv beta iota.
  rewrite np_stack_axis1_ok by (repeat constructor; array_length).
  rewrite lift_inr. cbv beta iota.
  unfold pd_DataFrame. cbn [shape rows fst snd length COLUMNS Nat.eqb].
  rewrite lift_inr. unfold ret. rewrite normal_length.
  f_equal. f_equal. f_equal.
  apply map_seq_ext. intros i [_ Hi]. cbn [Nat.add] in Hi.
  unfold patient_row, gauss_at, after_draws.
  cbn [map Nat.iter].
  repeat (rewrite zip_with_nth by (array_length; exact Hi)).
  rewrite !normal_nth by exact Hi.
  rewrite nth_repeat_lt by exact Hi.
  reflexivity.
Qed.

Lemma generate_healthy_regime n r :
  generate_healthy legacy_gauss n r
  = spec_generate_cohort legacy_gauss healthy_regime n r.
Proof. reflexivity. Qed.

Lemma generate_infected_regime n r :
  generate_infected legacy_gauss n r
  = spec_generate_cohort legacy_gauss infected_regime n r.
Proof. reflexivity. Qed.

Lemma generate_cohort_regime n b r :
  generate_cohort legacy_gauss n b r
  = spec_generate_cohort legacy_gauss (regime_of b) n r.
Proof. destruct b; reflexivity. Qed.

Lemma generate_cohort_run n b r :
  0 <= n ->
  generate_cohort legacy_gauss n b r
  = inr ({| columns := COLUMNS;
            index := map Z.of_nat (seq 0 (Z.to_nat n));
            values := map (patient_row legacy_gauss (regime_of b) (Z.to_nat n) r)
                          (seq 0 (Z.to_nat n)) |},
         after_draws legacy_gauss 8 (Z.to_nat n) r).
Proof.
  intros Hn. rewrite generate_cohort_regime.
  apply spec_generate_cohort_run; [exact Hn | | ]; destruct b; reflexivity.
Qed.

Lemma generate_cohort_negative n b r :
  n < 0 -> generate_cohort legacy_gauss n b r = inl ValueError.
Proof.
  intros Hn. rewrite generate_cohort_regime.
  unfold spec_generate_cohort, bind.
  now rewrite np_random_normal_negative.
Qed.

Lemma nth_error_map_seq {A} (f : nat -> A) k i :
  (i < k)%nat -> nth_error (map f (seq 0 k)) i = Some (f i).
Proof.
  intros Hi. rewrite nth_error_map, nth_error_seq.
  destruct (Nat.ltb_spec i k); [reflexivity | lia].
Qed.

Lemma cell_generated (f : nat -> list float) ix k i name :
  (i < k)%nat ->
  cell {| columns := COLUMNS; index := ix; values := map f (seq 0 k) |} i name
  = match get_loc name COLUMNS with
    | Some j => nth_error (f i) j
    | None => None
    end.
Proof.
  intros Hi. unfold cell. cbn [columns values].
  rewrite nth_error_map_seq by exact Hi.
  destruct (get_loc name COLUMNS); reflexivity.
Qed.

(** ** Claims about one generator call *)

(** C9: within one call every row's [infection] field is 1.0 when
    [is_infected] is true and 0.0 when it is false. *)
Theorem generate_cohort_label_pure n is_infected r :
  0 <= n ->
  exists df r',
    generate_cohort legacy_gauss n is_infected r = inr (df, r')
    /\ nrows df = Z.to_nat n
    /\ forall i, (i < nrows df)%nat ->
         cell df i "infection" = Some (if is_infected then 1 else 0)%float.
Proof.
  intros Hn. do 2 eexists. split; [apply generate_cohort_run; exact Hn|].
  unfold nrows. cbn [values]. rewrite length_map, length_seq.
  split; [reflexivity|].
  intros i Hi. rewrite cell_generated by exact Hi.
  destruct is_infected; reflexivity.
Qed.

(** C2: a count of zero returns, without failing and without drawing, the
    empty table under the nine-column schema; a negative count fails with
    [ValueError] (Python's invalid-argument error, the [InvalidArgument] of
    the spec's taxonomy) and returns no table at all. *)
Theorem generate_cohort_edge_counts is_infected r :
  (exists df,
      generate_cohort legacy_gauss 0 is_infected r = inr (df, r)
      /\ nrows df = 0%nat
      /\ values df = []
      /\ columns df
         = [ "systolic_pressure"; "diastolic_pressure";
             "daily_avg_body_temperature"; "body_temperature";
             "daily_avg_respiration_rate"; "respiration_rate";
             "daily_avg_pulse_rate"; "pulse_rate"; "infection" ]%string)
  /\ (forall n, n < 0 ->
        generate_cohort legacy_gauss n is_infected r = inl ValueError).
Proof.
  split.
  - eexists. split; [rewrite generate_cohort_run by lia; reflexivity|].
    repeat split; reflexivity.
  - intros n Hn. now apply generate_cohort_negative.
Qed.

(** C6: in both regimes each record's [diastolic_pressure] is that
    record's own [systolic_pressure] times its entry of the ratio array,
    which is drawn from Normal(2/3, 0.01) right after the systolic array. *)
Theorem diastolic_from_systolic n is_infected r :
  0 <= n ->
  exists df r' systolic ratio r1 r2,
    generate_cohort legacy_gauss n is_infected r = inr (df, r')
    /\ np_random_normal legacy_gauss 105 10 n r = inr (systolic, r1)
    /\ np_random_normal legacy_gauss (2 / 3) 0.01 n r1 = inr (ratio, r2)
    /\ forall i, (i < Z.to_nat n)%nat ->
         cell df i "systolic_pressure" = Some (nth i systolic 0%float)
         /\ cell df i "diastolic_pressure"
            = Some (nth i systolic 0 * nth i ratio 0)%float.
Proof.
  intros Hn. do 6 eexists.
  split; [apply generate_cohort_run; exact Hn|].
  split; [apply np_random_normal_ok; [exact Hn | reflexivity]|].
  split; [apply np_random_normal_ok; [exact Hn | reflexivity]|].
  intros i Hi. rewrite !cell_generated by exact Hi.
  rewrite !normal_nth by exact Hi.
  split; reflexivity.
Qed.

(** C7: in both regimes each record's [daily_avg_pulse_rate] is that
    record's own [daily_avg_respiration_rate] times its entry of the factor
    array, which is drawn from Normal(5.5, 0.2) as the seventh array draw. *)
Theorem pulse_average_from_respiration_average n is_infected r :
  0 <= n ->
  exists df r' avg_respiration factor r5 r7,
    generate_cohort legacy_gauss n is_infected r = inr (df, r')
    /\ np_random_normal legacy_gauss 14 0.8 n
         (after_draws legacy_gauss 4 (Z.to_nat n) r)
       = inr (avg_respiration, r5)
    /\ np_random_normal legacy_gauss 5.5 0.2 n
         (after_draws legacy_gauss 6 (Z.to_nat n) r)
       = inr (factor, r7)
    /\ forall i, (i < Z.to_nat n)%nat ->
         cell df i "daily_avg_respiration_rate"
         = Some (nth i avg_respiration 0%float)
         /\ cell df i "daily_avg_pulse_rate"
            = Some (nth i avg_respiration 0 * nth i factor 0)%float.
Proof.
  intros Hn. do 6 eexists.
  split; [apply generate_cohort_run; exact Hn|].
  split; [apply np_random_normal_ok; [exact Hn | reflexivity]|].
  split; [apply np_random_normal_ok; [exact Hn | reflexivity]|].
  intros i Hi. rewrite !cell_generated by exact Hi.
  rewrite !normal_nth by exact Hi.
  split; reflexivity.
Qed.

(** C1: the label flag selects the noise distributions.  The respiration
    noise array is the sixth array draw, from Normal(1.5, 0.4) when
    [is_infected] and Normal(0, 0.5) otherwise; the pulse noise array is the
    eighth, from Normal(10, 5) when [is_infected] and Normal(0, 4) otherwise;
    each record's current rate is its daily average plus its noise entry. *)
Theorem noise_selected_by_label n is_infected r :
  0 <= n ->
  exists df r' resp_noise pulse_noise r6 r8,
    generate_cohort legacy_gauss n is_infected r = inr (df, r')
    /\ np_random_normal legacy_gauss
         (if is_infected then 1.5 else 0) (if is_infected then 0.4 else 0.5) n
         (after_draws legacy_gauss 5 (Z.to_nat n) r)
       = inr (resp_noise, r6)
    /\ np_random_normal legacy_gauss
         (if is_infected then 10 else 0) (if is_infected then 5 else 4) n
         (after_draws legacy_gauss 7 (Z.to_nat n) r)
       = inr (pulse_noise, r8)
    /\ forall i, (i < Z.to_nat n)%nat ->
         exists avg_respiration avg_pulse,
           cell df i "daily_avg_respiration_rate" = Some avg_respiration
           /\ cell df i "respiration_rate"
              = Some (avg_respiration + nth i resp_noise 0)%float
           /\ cell df i "daily_avg_pulse_rate" = Some avg_pulse
           /\ cell df i "pulse_rate"
              = Some (avg_pulse + nth i pulse_noise 0)%float.
Proof.
  intros Hn. destruct is_infected; do 6 eexists.
  all: split; [apply generate_cohort_run; exact Hn|].
  all: split; [apply np_random_normal_ok; [exact Hn | reflexivity]|].
  all: split; [apply np_random_normal_ok; [exact Hn | reflexivity]|].
  all: intros i Hi; do 2 eexists; rewrite !cell_generated by exact Hi.
  all: rewrite !normal_nth by exact Hi.
  all: repeat split; reflexivity.
Qed.

(** C10: entered in the same generator state, the two source routines
    both are the one parametrised routine at their own regime, return tables
    with the same columns and row labels, leave the generator in the same
    state, agree on the six regime-independent fields of every record, and
    build the remaining fields from the same standard-normal draws and the
    same averages, differing in the two noise parameter pairs and the
    label. *)
Theorem healthy_infected_differ_only_in_regime n r :
  0 <= n ->
  exists healthy infected r',
    generate_healthy legacy_gauss n r = inr (healthy, r')
    /\ generate_infected legacy_gauss n r = inr (infected, r')
    /\ (forall m s, generate_healthy legacy_gauss m s
                    = spec_generate_cohort legacy_gauss healthy_regime m s)
    /\ (forall m s, generate_infected legacy_gauss m s
                    = spec_generate_cohort legacy_gauss infected_regime m s)
    /\ columns healthy = columns infected
    /\ index healthy = index infected
    /\ nrows healthy = Z.to_nat n
    /\ nrows infected = Z.to_nat n
    /\ (forall i c,
          In c [ "systolic_pressure"; "diastolic_pressure";
                 "daily_avg_body_temperature"; "body_temperature";
                 "daily_avg_respiration_rate"; "daily_avg_pulse_rate" ]%string ->
          cell healthy i c = cell infected i c)
    /\ (forall i, (i < Z.to_nat n)%nat ->
          exists avg_respiration avg_pulse,
            let g6 := gauss_at legacy_gauss 5 (Z.to_nat n) i r in
            let g8 := gauss_at legacy_gauss 7 (Z.to_nat n) i r in
            cell healthy i "respiration_rate"
            = Some (avg_respiration + (0 + 0.5 * g6))%float
            /\ cell infected i "respiration_rate"
               = Some (avg_respiration + (1.5 + 0.4 * g6))%float
            /\ cell healthy i "pulse_rate"
               = Some (avg_pulse + (0 + 4 * g8))%float
            /\ cell infected i "pulse_rate"
               = Some (avg_pulse + (10 + 5 * g8))%float
            /\ cell healthy i "infection" = Some 0%float
            /\ cell infected i "infection" = Some 1%float).
Proof.
  intros Hn. do 3 eexists.
  split; [apply (generate_cohort_run n false r Hn)|].
  split; [apply (generate_cohort_run n true r Hn)|].
  split; [exact generate_healthy_regime|].
  split; [exact generate_infected_regime|].
  unfold nrows. cbn [columns index values]. rewrite !length_map, !length_seq.
  do 4 (split; [reflexivity|]).
  split.
  - intros i c Hc.
    destruct (Nat.lt_ge_cases i (Z.to_nat n)) as [Hi | Hi].
    + rewrite !cell_generated by exact Hi. cbn [In] in Hc.
      repeat (destruct Hc as [<- | Hc]; [reflexivity|]). contradiction.
    + unfold cell. cbn [columns values].
      rewrite !(proj2 (nth_error_None _ _))
        by (rewrite length_map, length_seq; exact Hi).
      reflexivity.
  - intros i Hi. do 2 eexists. rewrite !cell_generated by exact Hi.
    cbv zeta. repeat split; reflexivity.
Qed.

(** ** The dataset of cell 7 *)

Lemma map_seq_const {A} (v : A) s k : map (fun _ => v) (seq s k) = repeat v k.
Proof.
  revert s; induction k as [|k IH]; intros s; simpl; [reflexivity|].
  now rewrite IH.
Qed.

Lemma build_dataset_run n_healthy n_infected r :
  0 <= n_healthy -> 0 <= n_infected ->
  let kh := Z.to_nat n_healthy in
  let ki := Z.to_nat n_infected in
  let r1 := after_draws legacy_gauss 8 kh r in
  build_dataset legacy_gauss n_healthy n_infected r
  = inr (({| columns := firstn 8 COLUMNS;
             index := map Z.of_nat (seq 0 (kh + ki));
             values :=
               map (fun i => firstn 8 (patient_row legacy_gauss healthy_regime kh r i))
                   (seq 0 kh)
               ++ map (fun i => firstn 8
                                  (patient_row legacy_gauss infected_regime ki r1 i))
                      (seq 0 ki) |},
          repeat 0%float kh ++ repeat 1%float ki),
         after_draws legacy_gauss 8 ki r1).
Proof.
  intros Hh Hi kh ki r1. unfold build_dataset, bind.
  rewrite (generate_cohort_run n_healthy false r Hh
           : generate_healthy legacy_gauss n_healthy r = _).
  cbv beta iota. fold kh. fold r1.
  rewrite (generate_cohort_run n_infected true r1 Hi
           : generate_infected legacy_gauss n_infected r1 = _).
  cbv beta iota zeta. fold ki.
  unfold pd_concat, reset_index, drop_column, column_values, nrows,
    reindex_columns.
  cbn [columns index values].
  change (COLUMNS ++ filter _ COLUMNS) with COLUMNS.
  change (existsb (String.eqb "infection") COLUMNS) with true.
  change (get_loc "infection" COLUMNS) with (Some 8%nat).
  cbv beta iota. rewrite !lift_inr. cbv beta iota. unfold ret.
  rewrite !map_app, !map_map, !length_app, !length_map, !length_seq.
  apply f_equal.
  apply (f_equal2 pair); [apply (f_equal2 pair)|reflexivity].
  - reflexivity.
  - f_equal.
    + exact (map_seq_const 0%float 0 kh).
    + exact (map_seq_const 1%float 0 ki).
Qed.

(** C3: [build_dataset(900, 100)] returns a feature table of 1000 rows
    under the eight feature columns (no [infection] column) and a label
    vector of 900 zeros followed by 100 ones; the rows are those of the
    healthy cohort followed by those of the infected cohort, each block in
    generation order, each row without its last ([infection]) entry. *)
Theorem build_dataset_900_100 r :
  exists X y r' healthy infected r1,
    build_dataset legacy_gauss 900 100 r = inr ((X, y), r')
    /\ generate_healthy legacy_gauss 900 r = inr (healthy, r1)
    /\ generate_infected legacy_gauss 100 r1 = inr (infected, r')
    /\ nrows X = 1000%nat
    /\ columns X
       = [ "systolic_pressure"; "diastolic_pressure";
           "daily_avg_body_temperature"; "body_temperature";
           "daily_avg_respiration_rate"; "respiration_rate";
           "daily_avg_pulse_rate"; "pulse_rate" ]%string
    /\ Forall (fun row => length row = 8%nat) (values X)
    /\ y = repeat 0%float 900 ++ repeat 1%float 100
    /\ values X
       = map (firstn 8) (values healthy) ++ map (firstn 8) (values infected).
Proof.
  do 6 eexists.
  split; [apply build_dataset_run; lia|].
  split; [apply (generate_cohort_run 900 false r); lia|].
  split; [apply (generate_cohort_run 100 true); lia|].
  unfold nrows. cbn [columns values].
  split; [rewrite length_app, !length_map, !length_seq; reflexivity|].
  split; [reflexivity|].
  split.
  - apply Forall_app. split; apply Forall_forall; intros row Hrow;
      apply in_map_iff in Hrow; destruct Hrow as (i & <- & _); reflexivity.
  - split; [reflexivity|].
    rewrite !map_map. reflexivity.
Qed.

End GeneratorFacts.

(** ** No missing values *)

Section CohortValues.

Variable rng : Type.
Variable legacy_gauss : rng -> float * rng.

(** Every standard-normal draw is a finite double of magnitude below 2^64
    (NumPy's polar method returns values of magnitude below 13). *)
Hypothesis gauss_finite :
  forall r, finite_below 64 (fst (legacy_gauss r)) = true.

Lemma gauss_fill_finite k r :
  Forall (fun g => finite_below 64 g = true) (fst (gauss_fill legacy_gauss k r)).
Proof.
  revert r; induction k as [|k IH]; intros r; cbn [gauss_fill]; [constructor|].
  pose proof (gauss_finite r) as Hg.
  destruct (legacy_gauss r) as [g r1]. specialize (IH r1).
  destruct (gauss_fill legacy_gauss k r1) as [gs r2].
  constructor; assumption.
Qed.

Lemma gauss_at_finite j k i r :
  finite_below 64 (gauss_at legacy_gauss j k i r) = true.
Proof.
  unfold gauss_at.
  pose proof (gauss_fill_finite k (after_draws legacy_gauss j k r)) as H.
  rewrite Forall_forall in H.
  destruct (nth_in_or_default i
              (fst (gauss_fill legacy_gauss k (after_draws legacy_gauss j k r)))
              0%float) as [Hin | ->]; [now apply H | reflexivity].
Qed.

(** Bounds a float expression built from draws, constants, [+] and [*]. *)
Ltac finite_bound :=
  lazymatch goal with
  | |- finite_below _ (_ * _)%float = true =>
      eapply mul_finite_below; [finite_bound | finite_bound | lia | lia]
  | |- finite_below _ (_ + _)%float = true =>
      eapply add_finite_below; [finite_bound | finite_bound | lia | lia]
  | |- finite_below _ (gauss_at _ _ _ _ _) = true => apply gauss_at_finite
  | |- finite_below _ ?c = true => exact (eq_refl : finite_below 64 c = true)
  end.

(** Every field of every generated record is a finite number. *)
Lemma patient_row_finite is_infected k r i :
  Forall (fun v => exists E, finite_below E v = true)
         (patient_row legacy_gauss (regime_of is_infected) k r i).
Proof.
  unfold patient_row.
  destruct is_infected;
    cbn [regime_of infected_regime healthy_regime resp_noise_mean resp_noise_std
         pulse_noise_mean pulse_noise_std label];
    repeat (constructor; [eexists; finite_bound|]); constructor.
Qed.

(** C8: for every [n >= 0] and either regime the call returns a table of
    exactly [n] rows under the nine column names in their fixed order, every
    row has nine entries, and every cell of every row holds a number: it is
    present, it is not NaN (the value pandas counts as missing) and it is
    not an infinity. *)
Theorem generate_cohort_shape n is_infected r :
  0 <= n ->
  exists df r',
    generate_cohort legacy_gauss n is_infected r = inr (df, r')
    /\ nrows df = Z.to_nat n
    /\ columns df
       = [ "systolic_pressure"; "diastolic_pressure";
           "daily_avg_body_temperature"; "body_temperature";
           "daily_avg_respiration_rate"; "respiration_rate";
           "daily_avg_pulse_rate"; "pulse_rate"; "infection" ]%string
    /\ Forall (fun row => length row = 9%nat) (values df)
    /\ (forall i c, (i < Z.to_nat n)%nat -> In c (columns df) ->
                    exists v, cell df i c = Some v
                              /\ is_nan v = false
                              /\ is_infinity v = false).
Proof.
  intros Hn. do 2 eexists. split; [apply generate_cohort_run; exact Hn|].
  unfold nrows. cbn [columns values].
  split; [now rewrite length_map, length_seq|].
  split; [reflexivity|].
  split.
  - apply Forall_forall. intros row Hrow.
    apply in_map_iff in Hrow. destruct Hrow as (i & <- & _). reflexivity.
  - intros i c Hi Hc. rewrite cell_generated by exact Hi.
    pose proof (patient_row_finite is_infected (Z.to_nat n) r i) as Hfin.
    rewrite Forall_forall in Hfin.
    assert (Hcell : forall j v,
               nth_error (patient_row legacy_gauss (regime_of is_infected)
                                      (Z.to_nat n) r i) j = Some v ->
               is_nan v = false /\ is_infinity v = false).
    { intros j v Hv. apply nth_error_In in Hv.
      destruct (Hfin v Hv) as [E HE].
      split; [exact (finite_below_not_nan E v HE)
             | exact (finite_below_not_infinity E v HE)]. }
    assert (Hsome : forall j, (j < 9)%nat ->
               exists v,
                 nth_error (patient_row legacy_gauss (regime_of is_infected)
                                        (Z.to_nat n) r i) j = Some v
                 /\ is_nan v = false /\ is_infinity v = false).
    { intros j Hj.
      destruct (nth_error (patient_row legacy_gauss (regime_of is_infected)
                                       (Z.to_nat n) r i) j) as [v|] eqn:Ev.
      - exists v. split; [reflexivity | exact (Hcell j v Ev)].
      - apply nth_error_None in Ev. cbn [patient_row length] in Ev. lia. }
    unfold COLUMNS in Hc. cbn [In] in Hc.
    repeat (destruct Hc as [<- | Hc]; [apply Hsome; lia|]).
    contradiction.
Qed.

End CohortValues.

(** ** The train/test split *)

Lemma take_in_range {A} (d : A) indices (l : list A) :
  (forall i, In i indices -> (i < length l)%nat) ->
  take indices l = inr (map (fun i => nth i l d) indices).
Proof.
  induction indices as [|i rest IH]; intros H; simpl; [reflexivity|].
  rewrite IH by (intros j Hj; apply H; now right).
  rewrite (nth_error_nth' l d) by (apply H; now left).
  reflexivity.
Qed.

Lemma py_slice_prefix {A} (t : Z) (l : list A) :
  0 <= t <= Z.of_nat (length l) ->
  py_slice 0 t l = firstn (Z.to_nat t) l.
Proof.
  intros H. unfold py_slice, clip.
  rewrite Z.ltb_irrefl.
  destruct (Z.ltb_spec t 0); [lia|].
  set (len := Z.of_nat (length l)) in *.
  replace (Z.to_nat (Z.max 0 (Z.min len 0))) with 0%nat by lia.
  replace (Z.max 0 (Z.min len t) - Z.max 0 (Z.min len 0)) with t by lia.
  reflexivity.
Qed.

Lemma py_slice_suffix {A} (t : Z) (l : list A) :
  0 <= t <= Z.of_nat (length l) ->
  py_slice t (Z.of_nat (length l)) l = skipn (Z.to_nat t) l.
Proof.
  intros H. unfold py_slice, clip.
  destruct (Z.ltb_spec t 0); [lia|].
  destruct (Z.ltb_spec (Z.of_nat (length l)) 0); [lia|].
  set (len := Z.of_nat (length l)) in *.
  replace (Z.to_nat (Z.max 0 (Z.min len t))) with (Z.to_nat t) by lia.
  apply firstn_all2. rewrite length_skipn. lia.
Qed.

Lemma in_firstn_list {A} k (l : list A) x : In x (firstn k l) -> In x l.
Proof.
  intros H. rewrite <- (firstn_skipn k l). apply in_or_app. now left.
Qed.

Lemma in_skipn_list {A} k (l : list A) x : In x (skipn k l) -> In x l.
Proof.
  intros H. rewrite <- (firstn_skipn k l). apply in_or_app. now right.
Qed.

Lemma validate_shuffle_split_inv n test_size n_train n_test :
  validate_shuffle_split n test_size = inr (n_train, n_test) ->
  math_ceil (test_size * float_of_nat n)%float = inr n_test
  /\ n_train = Z.of_nat n - n_test.
Proof.
  unfold validate_shuffle_split.
  destruct (_ || _); [discriminate|].
  destruct (math_ceil _) as [e | c]; [discriminate|].
  destruct (_ <? _); [discriminate|].
  destruct (_ =? _); [discriminate|].
  intros H. injection H as <- <-. split; reflexivity.
Qed.

Lemma validate_shuffle_split_counts_ok n n_test :
  0 < n_test < Z.of_nat n ->
  validate_shuffle_split_counts n n_test (Z.of_nat n - n_test)
  = inr (Z.of_nat n - n_test, n_test).
Proof.
  intros H. unfold validate_shuffle_split_counts.
  destruct (Z.leb_spec (Z.of_nat n) n_test); [lia|].
  destruct (Z.leb_spec n_test 0); [lia|].
  destruct (Z.leb_spec (Z.of_nat n) (Z.of_nat n - n_test)); [lia|].
  destruct (Z.leb_spec (Z.of_nat n - n_test) 0); [lia|].
  destruct (Z.ltb_spec (Z.of_nat n) (Z.of_nat n - n_test + n_test)); [lia|].
  destruct (Z.eqb_spec (Z.of_nat n - n_test) 0); [lia|].
  reflexivity.
Qed.

Section SplitFacts.

Variable permutation : Z -> nat -> list nat.

(** What [RandomState.permutation] promises: the result is a rearrangement
    of 0 .. n-1. *)
Hypothesis permutation_spec :
  forall seed n, Permutation (permutation seed n) (seq 0 n).

Lemma permutation_length seed n : length (permutation seed n) = n.
Proof.
  rewrite (Permutation_length (permutation_spec seed n)). apply length_seq.
Qed.

Lemma permutation_in_range seed n i : In i (permutation seed n) -> (i < n)%nat.
Proof.
  intros H. apply (Permutation_in _ (permutation_spec seed n)) in H.
  apply in_seq in H. lia.
Qed.

Lemma shuffle_split_run n n_test seed :
  0 < n_test < Z.of_nat n ->
  shuffle_split permutation n (Z.of_nat n - n_test) n_test seed
  = inr (skipn (Z.to_nat n_test) (permutation seed n),
         firstn (Z.to_nat n_test) (permutation seed n)).
Proof.
  intros H. unfold shuffle_split.
  rewrite validate_shuffle_split_counts_ok by exact H.
  rewrite py_slice_prefix by (rewrite permutation_length; lia).
  replace (n_test + (Z.of_nat n - n_test))
    with (Z.of_nat (length (permutation seed n)))
    by (rewrite permutation_length; lia).
  rewrite py_slice_suffix by (rewrite permutation_length; lia).
  reflexivity.
Qed.

Lemma train_test_split_run X y test_size seed n_train n_test :
  length y = nrows X ->
  length (index X) = nrows X ->
  validate_shuffle_split (nrows X) test_size = inr (n_train, n_test) ->
  0 < n_test < Z.of_nat (nrows X) ->
  let train := skipn (Z.to_nat n_test) (permutation seed (nrows X)) in
  let test := firstn (Z.to_nat n_test) (permutation seed (nrows X)) in
  let rows_at idx :=
    {| columns := columns X;
       index := map (fun i => nth i (index X) 0) idx;
       values := map (fun i => nth i (values X) []) idx |} in
  shuffle_split permutation (nrows X) n_train n_test seed = inr (train, test)
  /\ train_test_split permutation X y test_size seed
     = inr (rows_at train, rows_at test,
            map (fun i => nth i y 0%float) train,
            map (fun i => nth i y 0%float) test).
Proof.
  intros Hy Hix Hv Hb train test rows_at.
  destruct (validate_shuffle_split_inv _ _ _ _ Hv) as [_ ->].
  assert (Hs := shuffle_split_run (nrows X) n_test seed Hb).
  split; [exact Hs|].
  assert (Htrain : forall i, In i train -> (i < nrows X)%nat).
  { intros i Hi. apply (permutation_in_range seed).
    apply (in_skipn_list _ _ _ Hi). }
  assert (Htest : forall i, In i test -> (i < nrows X)%nat).
  { intros i Hi. apply (permutation_in_range seed).
    apply (in_firstn_list _ _ _ Hi). }
  unfold train_test_split.
  rewrite Hy, Nat.eqb_refl. cbn [negb].
  rewrite Hv, Hs. fold train. fold test.
  unfold iloc.
  rewrite !(take_in_range []) by assumption.
  rewrite !(take_in_range 0) by (rewrite Hix; assumption).
  rewrite !(take_in_range 0%float) by (rewrite Hy; assumption).
  reflexivity.
Qed.

Lemma split_indices n seed n_test :
  let train := skipn (Z.to_nat n_test) (permutation seed n) in
  let test := firstn (Z.to_nat n_test) (permutation seed n) in
  Permutation (train ++ test) (seq 0 n)
  /\ length test = Nat.min (Z.to_nat n_test) n
  /\ length train = (n - Z.to_nat n_test)%nat.
Proof.
  intros train test. split; [|split].
  - rewrite Permutation_app_comm. unfold train, test.
    rewrite firstn_skipn. apply permutation_spec.
  - unfold test. rewrite length_firstn, permutation_length. reflexivity.
  - unfold train. rewrite length_skipn, permutation_length. reflexivity.
Qed.

Lemma train_test_split_1000 (X : DataFrame) (y : array) seed :
  nrows X = 1000%nat -> length y = 1000%nat ->
  length (index X) = 1000%nat ->
  exists X_train X_test y_train y_test,
    train_test_split permutation X y 0.2 seed
    = inr (X_train, X_test, y_train, y_test)
    /\ nrows X_test = 200%nat /\ length y_test = 200%nat
    /\ nrows X_train = 800%nat /\ length y_train = 800%nat.
Proof.
  intros HX Hy Hix.
  assert (Hv : validate_shuffle_split (nrows X) 0.2 = inr (800, 200))
    by (rewrite HX; vm_compute; reflexivity).
  assert (Hb : 0 < 200 < Z.of_nat (nrows X)) by (rewrite HX; lia).
  rewrite <- HX in Hy, Hix.
  destruct (train_test_split_run X y 0.2 seed _ _ Hy Hix Hv Hb) as [_ Hrun].
  destruct (split_indices (nrows X) seed 200) as (_ & Hlt & Hlr).
  do 4 eexists. split; [exact Hrun|].
  unfold nrows in *. cbn [values].
  rewrite !length_map, Hlt, Hlr, HX. repeat split; reflexivity.
Qed.

Lemma NoDup_app_disjoint {A} (l1 l2 : list A) x :
  NoDup (l1 ++ l2) -> In x l1 -> ~ In x l2.
Proof.
  intros Hnd H1 H2. apply in_split in H1. destruct H1 as (a & b & ->).
  rewrite <- app_assoc in Hnd. apply NoDup_app_remove_l in Hnd.
  cbn in Hnd. inversion Hnd as [|? ? Hni _]; subst.
  apply Hni. apply in_or_app. now right.
Qed.

(** The notebook's own run of cell 7 returns 800 train rows and 200 test
    rows with their labels, whatever the generator state it starts from. *)
Lemma notebook_cell7_sizes {rng} (legacy_gauss : rng -> float * rng) r :
  exists X_train X_test y_train y_test r',
    notebook_cell7 legacy_gauss permutation r
    = inr ((X_train, X_test, y_train, y_test), r')
    /\ nrows X_train = 800%nat /\ length y_train = 800%nat
    /\ nrows X_test = 200%nat /\ length y_test = 200%nat.
Proof.
  unfold notebook_cell7, bind.
  rewrite build_dataset_run by lia. cbn [fst snd].
  match goal with
  | |- context [train_test_split permutation ?X ?y _ _] =>
      destruct (train_test_split_1000 X y 0) as (Xtr & Xte & ytr & yte & Hrun & H)
  end.
  - unfold nrows. cbn [values].
    rewrite length_app, !length_map, !length_seq. reflexivity.
  - rewrite length_app, !repeat_length. reflexivity.
  - cbn [index]. rewrite length_map, length_seq. reflexivity.
  - rewrite Hrun. exists Xtr, Xte, ytr, yte. eexists.
    split; [reflexivity|]. tauto.
Qed.

(** C4, as the code has it: the split selects feature rows and labels by
    the same index lists, so a row and its label travel together; the two
    index lists together are a rearrangement of 0 .. n-1, so every input row
    lands in exactly one partition; the index lists are computed from the
    row count, the two sizes and the seed alone; the test size is the
    ceiling of [test_size * n] in binary64 arithmetic and the train size the
    remainder.  On any 1000 rows with [test_size = 0.2] the split returns 200
    test rows and 800 train rows. *)
Theorem train_test_split_partition :
  (forall (X : DataFrame) (y : array) test_size seed n_train n_test,
      length y = nrows X ->
      length (index X) = nrows X ->
      validate_shuffle_split (nrows X) test_size = inr (n_train, n_test) ->
      0 < n_test < Z.of_nat (nrows X) ->
      exists train test X_train X_test y_train y_test,
        train_test_split permutation X y test_size seed
        = inr (X_train, X_test, y_train, y_test)
        /\ shuffle_split permutation (nrows X) n_train n_test seed
           = inr (train, test)
        /\ values X_train = map (fun i => nth i (values X) []) train
        /\ y_train = map (fun i => nth i y 0%float) train
        /\ values X_test = map (fun i => nth i (values X) []) test
        /\ y_test = map (fun i => nth i y 0%float) test
        /\ Permutation (train ++ test) (seq 0 (nrows X))
        /\ NoDup (train ++ test)
        /\ (forall i, In i train -> ~ In i test)
        /\ math_ceil (test_size * float_of_nat (nrows X))%float = inr n_test
        /\ Z.of_nat (nrows X_test) = n_test
        /\ Z.of_nat (nrows X_train) = Z.of_nat (nrows X) - n_test
        /\ length y_test = nrows X_test
        /\ length y_train = nrows X_train)
  /\ (forall (X : DataFrame) (y : array) seed,
        nrows X = 1000%nat -> length y = 1000%nat ->
        length (index X) = 1000%nat ->
        exists X_train X_test y_train y_test,
          train_test_split permutation X y 0.2 seed
          = inr (X_train, X_test, y_train, y_test)
          /\ nrows X_test = 200%nat /\ length y_test = 200%nat
          /\ nrows X_train = 800%nat /\ length y_train = 800%nat).
Proof.
  split.
  - intros X y test_size seed n_train n_test Hy Hix Hv Hb.
    destruct (train_test_split_run X y test_size seed _ _ Hy Hix Hv Hb)
      as [Hs Hrun].
    destruct (split_indices (nrows X) seed n_test) as (Hp & Hlt & Hlr).
    destruct (validate_shuffle_split_inv _ _ _ _ Hv) as [Hceil _].
    do 6 eexists.
    split; [exact Hrun|]. split; [exact Hs|].
    cbn [values].
    do 4 (split; [reflexivity|]).
    split; [exact Hp|].
    assert (Hnd := Permutation_NoDup (Permutation_sym Hp) (seq_NoDup _ _)).
    split; [exact Hnd|].
    split; [intros i Hi Ht; exact (NoDup_app_disjoint _ _ _ Hnd Hi Ht)|].
    split; [exact Hceil|].
    unfold nrows in *. cbn [values].
    rewrite !length_map, Hlt, Hlr. repeat split; lia.
  - exact train_test_split_1000.
Qed.

End SplitFacts.

(** ** The claims at concrete inputs *)

Lemma toy_permutation_spec seed n : Permutation (Toy.permutation seed n) (seq 0 n).
Proof. unfold Toy.permutation. apply Permutation_sym, Permutation_rev. Qed.

Lemma noise_selected_by_label_witness :
  0 <= 2
  /\ exists df r' resp_noise pulse_noise r6 r8,
       generate_cohort Toy.legacy_gauss 2 true 0 = inr (df, r')
       /\ np_random_normal Toy.legacy_gauss 1.5 0.4 2
            (after_draws Toy.legacy_gauss 5 2 0)
          = inr (resp_noise, r6)
       /\ np_random_normal Toy.legacy_gauss 10 5 2
            (after_draws Toy.legacy_gauss 7 2 0)
          = inr (pulse_noise, r8)
       /\ forall i, (i < 2)%nat ->
            exists avg_respiration avg_pulse,
              cell df i "daily_avg_respiration_rate" = Some avg_respiration
              /\ cell df i "respiration_rate"
                 = Some (avg_respiration + nth i resp_noise 0)%float
              /\ cell df i "daily_avg_pulse_rate" = Some avg_pulse
              /\ cell df i "pulse_rate"
                 = Some (avg_pulse + nth i pulse_noise 0)%float.
Proof.
  split; [lia|].
  apply (noise_selected_by_label Toy.rng Toy.legacy_gauss 2 true 0). lia.
Defined.

Lemma toy_gauss_finite r : finite_below 64 (fst (Toy.legacy_gauss r)) = true.
Proof.
  unfold Toy.legacy_gauss. cbn [fst].
  assert (H : r mod 3 = 0 \/ r mod 3 = 1 \/ r mod 3 = 2)
    by (pose proof (Z.mod_pos_bound r 3); lia).
  destruct H as [-> | [-> | ->]]; reflexivity.
Qed.

Lemma generate_cohort_shape_witness :
  0 <= 3
  /\ exists df r',
       generate_cohort Toy.legacy_gauss 3 false 0 = inr (df, r')
       /\ nrows df = 3%nat
       /\ columns df = COLUMNS
       /\ Forall (fun row => length row = 9%nat) (values df)
       /\ (forall i c, (i < 3)%nat -> In c (columns df) ->
                       exists v, cell df i c = Some v
                                 /\ is_nan v = false
                                 /\ is_infinity v = false).
Proof.
  split; [lia|].
  apply (generate_cohort_shape Toy.rng Toy.legacy_gauss toy_gauss_finite
                               3 false 0).
  lia.
Defined.

Lemma generate_cohort_label_pure_witness :
  0 <= 2
  /\ exists df r',
       generate_cohort Toy.legacy_gauss 2 true 0 = inr (df, r')
       /\ nrows df = 2%nat
       /\ forall i, (i < nrows df)%nat -> cell df i "infection" = Some 1%float.
Proof.
  split; [lia|].
  apply (generate_cohort_label_pure Toy.rng Toy.legacy_gauss 2 true 0). lia.
Defined.

Lemma diastolic_from_systolic_witness :
  0 <= 2
  /\ exists df r' systolic ratio r1 r2,
       generate_cohort Toy.legacy_gauss 2 false 0 = inr (df, r')
       /\ np_random_normal Toy.legacy_gauss 105 10 2 0 = inr (systolic, r1)
       /\ np_random_normal Toy.legacy_gauss (2 / 3) 0.01 2 r1 = inr (ratio, r2)
       /\ forall i, (i < 2)%nat ->
            cell df i "systolic_pressure" = Some (nth i systolic 0%float)
            /\ cell df i "diastolic_pressure"
               = Some (nth i systolic 0 * nth i ratio 0)%float.
Proof.
  split; [lia|].
  apply (diastolic_from_systolic Toy.rng Toy.legacy_gauss 2 false 0). lia.
Defined.

Lemma pulse_average_from_respiration_average_witness :
  0 <= 2
  /\ exists df r' avg_respiration factor r5 r7,
       generate_cohort Toy.legacy_gauss 2 true 0 = inr (df, r')
       /\ np_random_normal Toy.legacy_gauss 14 0.8 2
            (after_draws Toy.legacy_gauss 4 2 0)
          = inr (avg_respiration, r5)
       /\ np_random_normal Toy.legacy_gauss 5.5 0.2 2
            (after_draws Toy.legacy_gauss 6 2 0)
          = inr (factor, r7)
       /\ forall i, (i < 2)%nat ->
            cell df i "daily_avg_respiration_rate"
            = Some (nth i avg_respiration 0%float)
            /\ cell df i "daily_avg_pulse_rate"
               = Some (nth i avg_respiration 0 * nth i factor 0)%float.
Proof.
  split; [lia|].
  apply (pulse_average_from_respiration_average Toy.rng Toy.legacy_gauss 2 true 0).
  lia.
Defined.

Lemma healthy_infected_differ_only_in_regime_witness :
  0 <= 2
  /\ exists healthy infected r',
       generate_healthy Toy.legacy_gauss 2 0 = inr (healthy, r')
       /\ generate_infected Toy.legacy_gauss 2 0 = inr (infected, r')
       /\ cell healthy 1 "daily_avg_pulse_rate"
          = cell infected 1 "daily_avg_pulse_rate"
       /\ cell healthy 1 "infection" = Some 0%float
       /\ cell infected 1 "infection" = Some 1%float.
Proof.
  split; [lia|].
  destruct (healthy_infected_differ_only_in_regime Toy.rng Toy.legacy_gauss 2 0)
    as (healthy & infected & r' & Hh & Hi & _ & _ & _ & _ & _ & _ & Hsame & Hdiff);
    [lia|].
  exists healthy, infected, r'.
  split; [exact Hh|]. split; [exact Hi|].
  split; [apply Hsame; cbn; tauto|].
  destruct (Hdiff 1%nat) as (a & p & _ & _ & _ & _ & H0 & H1); [cbn; lia|].
  split; assumption.
Defined.

Lemma train_test_split_partition_witness :
  exists X_train X_test y_train y_test,
    train_test_split Toy.permutation six_rows six_labels 0.2 0
    = inr (X_train, X_test, y_train, y_test)
    /\ Permutation (map (fun v => [v]) [10; 11; 12; 13; 14; 15]%float)
                   (values X_train ++ values X_test)
    /\ Z.of_nat (nrows X_test) = 2.
Proof.
  destruct (proj1 (train_test_split_partition Toy.permutation toy_permutation_spec)
              six_rows six_labels 0.2%float 0 4 2)
    as (train & test & X_train & X_test & y_train & y_test
        & Hrun & _ & Htr & _ & Hte & _ & Hp & _ & _ & _ & Hsz & _);
    [reflexivity | reflexivity | vm_compute; reflexivity | cbn; lia |].
  exists X_train, X_test, y_train, y_test.
  split; [exact Hrun|]. split; [|exact Hsz].
  rewrite Htr, Hte, <- map_app.
  change (map (fun v => [v]) [10; 11; 12; 13; 14; 15]%float)
    with (map (fun i => nth i (values six_rows) []) (seq 0 (nrows six_rows))).
  apply Permutation_map, Permutation_sym, Hp.
Defined.

(** C4 as stated fails: on six rows with [test_size = 0.2] the product is
    1.2000000000000002, which rounds to 1, while the split puts 2 rows in
    the test set and 4 in the train set. *)
Lemma split_test_size_is_not_round :
  exists X_train X_test y_train y_test,
    nrows six_rows = 6%nat
    /\ train_test_split Toy.permutation six_rows six_labels 0.2 0
       = inr (X_train, X_test, y_train, y_test)
    /\ py_round (0.2 * float_of_nat (nrows six_rows))%float = inr 1
    /\ Z.of_nat (nrows X_test) = 2
    /\ Z.of_nat (nrows X_train) = 4
    /\ Z.of_nat (nrows X_test) <> 1.
Proof.
  do 4 eexists. split; [reflexivity|].
  split; [vm_compute; reflexivity|].
  split; [vm_compute; reflexivity|].
  cbn. repeat split; lia.
Qed.

(** ** Runs of the model *)

Example reference_split_counts :
  validate_shuffle_split 1000 0.2 = inr (800, 200).
Proof. vm_compute. reflexivity. Qed.

Example split_counts_1001 :
  validate_shuffle_split 1001 0.2 = inr (800, 201)
  /\ py_round (0.2 * float_of_nat 1001)%float = inr 200.
Proof. split; vm_compute; reflexivity. Qed.

Example toy_negative_count :
  generate_cohort Toy.legacy_gauss (-1) true 0 = inl ValueError.
Proof. reflexivity. Qed.

Example toy_first_infected_record :
  exists df r',
    generate_cohort Toy.legacy_gauss 2 true 0 = inr (df, r')
    /\ cell df 0 "systolic_pressure" = Some 95%float
    /\ cell df 0 "infection" = Some 1%float.
Proof. do 2 eexists. split; [vm_compute; reflexivity|]. split; reflexivity. Qed.

Example toy_seeded_run_ignores_entry_state :
  seeded_dataset Toy.legacy_gauss Toy.init_by_seed 0 2 1 5
  = seeded_dataset Toy.legacy_gauss Toy.init_by_seed 0 2 1 77.
Proof. reflexivity. Qed.

(** * Further properties of the notebook's code *)

(** ** The draws behind a cohort *)

Section StreamFacts.

Variable rng : Type.
Variable legacy_gauss : rng -> float * rng.

Lemma gauss_fill_add a b r :
  gauss_fill legacy_gauss (a + b) r
  = (fst (gauss_fill legacy_gauss a r)
     ++ fst (gauss_fill legacy_gauss b (advance legacy_gauss a r)),
     advance legacy_gauss b (advance legacy_gauss a r)).
Proof.
  revert r; induction a as [|a IH]; intros r.
  - unfold advance. cbn. now destruct (gauss_fill legacy_gauss b r).
  - unfold advance in *. cbn [Nat.add gauss_fill].
    destruct (legacy_gauss r) as [g r1]. rewrite IH.
    destruct (gauss_fill legacy_gauss a r1) as [gs r2]. reflexivity.
Qed.

Lemma advance_add a b r :
  advance legacy_gauss (a + b) r
  = advance legacy_gauss b (advance legacy_gauss a r).
Proof. unfold advance at 1. now rewrite gauss_fill_add. Qed.

Lemma after_draws_advance j k r :
  after_draws legacy_gauss j k r = advance legacy_gauss (j * k) r.
Proof.
  induction j as [|j IH]; [reflexivity|].
  change (after_draws legacy_gauss (S j) k r)
    with (advance legacy_gauss k (after_draws legacy_gauss j k r)).
  rewrite IH, <- advance_add.
  f_equal. lia.
Qed.

(** Entry [i] of the [j]-th array draw is entry [j * k + i] of the stream
    of standard-normal values. *)
Lemma gauss_at_stream m j k i r :
  (j < m)%nat -> (i < k)%nat ->
  gauss_at legacy_gauss j k i r
  = nth (j * k + i) (fst (gauss_fill legacy_gauss (m * k) r)) 0%float.
Proof.
  intros Hj Hi. unfold gauss_at. rewrite after_draws_advance.
  replace (m * k)%nat with (j * k + (k + (m - S j) * k))%nat by nia.
  rewrite gauss_fill_add. cbn [fst].
  rewrite app_nth2 by (rewrite gauss_fill_length; lia).
  rewrite gauss_fill_length.
  replace (j * k + i - j * k)%nat with i by lia.
  rewrite gauss_fill_add. cbn [fst].
  rewrite app_nth1 by (rewrite gauss_fill_length; exact Hi).
  reflexivity.
Qed.

(** X1: in both regimes each record's [body_temperature] is its own
    [daily_avg_body_temperature], the third array draw from
    Normal(36.7, 0.05), plus its entry of the fourth array draw, from
    Normal(0, 0.01): the label plays no part in the temperature fields. *)
Theorem body_temperature_from_daily_average n is_infected r :
  0 <= n ->
  exists df r' daily_avg noise r3 r4,
    generate_cohort legacy_gauss n is_infected r = inr (df, r')
    /\ np_random_normal legacy_gauss 36.7 0.05 n
         (after_draws legacy_gauss 2 (Z.to_nat n) r)
       = inr (daily_avg, r3)
    /\ np_random_normal legacy_gauss 0 0.01 n r3 = inr (noise, r4)
    /\ forall i, (i < Z.to_nat n)%nat ->
         cell df i "daily_avg_body_temperature" = Some (nth i daily_avg 0%float)
         /\ cell df i "body_temperature"
            = Some (nth i daily_avg 0 + nth i noise 0)%float.
Proof.
  intros Hn. do 6 eexists.
  split; [apply generate_cohort_run; exact Hn|].
  split; [apply np_random_normal_ok; [exact Hn | reflexivity]|].
  split; [apply np_random_normal_ok; [exact Hn | reflexivity]|].
  intros i Hi. rewrite !cell_generated by exact Hi.
  rewrite !normal_nth by exact Hi.
  split; reflexivity.
Qed.

(** X2: the draws are consumed array by array, not record by record.  With
    [g j] the entry [j * n + i] of the stream of standard-normal values read
    from the entry state, record [i] of a cohort of [n] is the row written
    out below, the regime choosing the two noise parameter pairs and the
    label. *)
Theorem record_from_stream n is_infected r :
  0 <= n ->
  exists df r',
    generate_cohort legacy_gauss n is_infected r = inr (df, r')
    /\ forall i, (i < Z.to_nat n)%nat ->
         let g j :=
           nth (j * Z.to_nat n + i)
               (fst (gauss_fill legacy_gauss (8 * Z.to_nat n) r)) 0%float in
         nth_error (values df) i
         = Some [ 105 + 10 * g 0%nat;
                  (105 + 10 * g 0%nat) * (2 / 3 + 0.01 * g 1%nat);
                  36.7 + 0.05 * g 2%nat;
                  (36.7 + 0.05 * g 2%nat) + (0 + 0.01 * g 3%nat);
                  14 + 0.8 * g 4%nat;
                  (14 + 0.8 * g 4%nat)
                  + (if is_infected then 1.5 + 0.4 * g 5%nat
                     else 0 + 0.5 * g 5%nat);
                  (14 + 0.8 * g 4%nat) * (5.5 + 0.2 * g 6%nat);
                  (14 + 0.8 * g 4%nat) * (5.5 + 0.2 * g 6%nat)
                  + (if is_infected then 10 + 5 * g 7%nat
                     else 0 + 4 * g 7%nat);
                  if is_infected then 1 else 0 ]%float.
Proof.
  intros Hn. do 2 eexists.
  split; [apply generate_cohort_run; exact Hn|].
  intros i Hi g. cbn [values].
  rewrite nth_error_map_seq by exact Hi.
  unfold patient_row.
  rewrite !(gauss_at_stream 8) by (first [exact Hi | lia]).
  destruct is_infected; reflexivity.
Qed.

(** X3: a call for [n >= 0] records advances the generator by exactly
    [8 * n] standard-normal draws, whatever the regime. *)
Theorem generate_cohort_consumes_8n n is_infected r :
  0 <= n ->
  exists df,
    generate_cohort legacy_gauss n is_infected r
    = inr (df, advance legacy_gauss (8 * Z.to_nat n) r).
Proof.
  intros Hn. eexists.
  rewrite generate_cohort_run by exact Hn.
  now rewrite after_draws_advance.
Qed.

End StreamFacts.

(** ** Seeding *)




(** ** The concatenated dataset *)

Section DatasetFacts.

Variable rng : Type.
Variable legacy_gauss : rng -> float * rng.

Lemma build_data_run n_healthy n_infected r :
  0 <= n_healthy -> 0 <= n_infected ->
  let kh := Z.to_nat n_healthy in
  let ki := Z.to_nat n_infected in
  let r1 := after_draws legacy_gauss 8 kh r in
  build_data legacy_gauss n_healthy n_infected r
  = inr ({| columns := COLUMNS;
            index := map Z.of_nat (seq 0 (kh + ki));
            values :=
              map (patient_row legacy_gauss healthy_regime kh r) (seq 0 kh)
              ++ map (patient_row legacy_gauss infected_regime ki r1) (seq 0 ki) |},
         after_draws legacy_gauss 8 ki r1).
Proof.
  intros Hh Hi kh ki r1. unfold build_data, bind.
  rewrite (generate_cohort_run _ legacy_gauss n_healthy false r Hh
           : generate_healthy legacy_gauss n_healthy r = _).
  cbv beta iota. fold kh. fold r1.
  rewrite (generate_cohort_run _ legacy_gauss n_infected true r1 Hi
           : generate_infected legacy_gauss n_infected r1 = _).
  cbv beta iota. fold ki.
  unfold ret, pd_concat, reset_index, nrows, reindex_columns.
  cbn [columns index values].
  change (COLUMNS ++ filter _ COLUMNS) with COLUMNS.
  rewrite !map_map, length_app, !length_map, !length_seq.
  reflexivity.
Qed.

(** X4: for any two non-negative counts the dataset cell returns the
    healthy rows followed by the infected rows, each without its
    [infection] entry, under the eight feature names and the row labels
    0 .. n-1; the labels are the zeros of the healthy block followed by the
    ones of the infected block; the infected cohort is drawn from the state
    the healthy call leaves, and the generator ends [8 * (n_healthy +
    n_infected)] draws on. *)
Theorem build_dataset_blocks n_healthy n_infected r :
  0 <= n_healthy -> 0 <= n_infected ->
  exists X y r' healthy infected r1,
    build_dataset legacy_gauss n_healthy n_infected r = inr ((X, y), r')
    /\ generate_healthy legacy_gauss n_healthy r = inr (healthy, r1)
    /\ generate_infected legacy_gauss n_infected r1 = inr (infected, r')
    /\ r' = advance legacy_gauss
              (8 * (Z.to_nat n_healthy + Z.to_nat n_infected)) r
    /\ values X
       = map (firstn 8) (values healthy) ++ map (firstn 8) (values infected)
    /\ y = repeat 0%float (Z.to_nat n_healthy)
           ++ repeat 1%float (Z.to_nat n_infected)
    /\ nrows X = (Z.to_nat n_healthy + Z.to_nat n_infected)%nat
    /\ length y = nrows X
    /\ index X
       = map Z.of_nat (seq 0 (Z.to_nat n_healthy + Z.to_nat n_infected))
    /\ columns X
       = [ "systolic_pressure"; "diastolic_pressure";
           "daily_avg_body_temperature"; "body_temperature";
           "daily_avg_respiration_rate"; "respiration_rate";
           "daily_avg_pulse_rate"; "pulse_rate" ]%string.
Proof.
  intros Hh Hi. do 6 eexists.
  split; [apply build_dataset_run; assumption|].
  split; [apply (generate_cohort_run _ legacy_gauss n_healthy false r Hh)|].
  split; [apply (generate_cohort_run _ legacy_gauss n_infected true _ Hi)|].
  split.
  { rewrite !after_draws_advance, <- advance_add. f_equal. lia. }
  unfold nrows. cbn [columns index values].
  split; [now rewrite !map_map|].
  split; [reflexivity|].
  rewrite !length_app, !length_map, !length_seq, !repeat_length.
  repeat split; reflexivity.
Qed.

(** X5: a negative count in either position makes the dataset cell fail
    with [ValueError]; no table is returned, also when the healthy cohort
    had already been drawn. *)
Theorem build_dataset_rejects_negative_counts n_healthy n_infected r :
  n_healthy < 0 \/ n_infected < 0 ->
  build_dataset legacy_gauss n_healthy n_infected r = inl ValueError.
Proof.
  intros H. unfold build_dataset, bind.
  destruct (Z.lt_ge_cases n_healthy 0) as [Hh | Hh].
  - rewrite (generate_cohort_negative _ legacy_gauss n_healthy false r Hh
             : generate_healthy legacy_gauss n_healthy r = _).
    reflexivity.
  - destruct H as [H | H]; [lia|].
    rewrite (generate_cohort_run _ legacy_gauss n_healthy false r Hh
             : generate_healthy legacy_gauss n_healthy r = _).
    cbv beta iota.
    rewrite (generate_cohort_negative _ legacy_gauss n_infected true _ H
             : generate_infected legacy_gauss n_infected _ = _).
    reflexivity.
Qed.

(** X6: [pd.concat] keeps each cohort's own row labels, so with two
    non-empty cohorts the concatenated frame carries repeated labels
    (0 .. n_healthy-1 then 0 .. n_infected-1); [reset_index(drop=True)]
    replaces them by the distinct labels 0 .. n-1 and changes neither the
    rows nor the columns. *)
Theorem reset_index_makes_labels_unique n_healthy n_infected r :
  0 < n_healthy -> 0 < n_infected ->
  exists healthy infected data r1 r2,
    generate_healthy legacy_gauss n_healthy r = inr (healthy, r1)
    /\ generate_infected legacy_gauss n_infected r1 = inr (infected, r2)
    /\ build_data legacy_gauss n_healthy n_infected r = inr (data, r2)
    /\ index (pd_concat healthy infected)
       = map Z.of_nat (seq 0 (Z.to_nat n_healthy))
         ++ map Z.of_nat (seq 0 (Z.to_nat n_infected))
    /\ ~ NoDup (index (pd_concat healthy infected))
    /\ index data
       = map Z.of_nat (seq 0 (Z.to_nat n_healthy + Z.to_nat n_infected))
    /\ NoDup (index data)
    /\ values data = values healthy ++ values infected
    /\ columns data = columns healthy.
Proof.
  intros Hh Hi. do 5 eexists.
  split; [apply (generate_cohort_run _ legacy_gauss n_healthy false r); lia|].
  split; [apply (generate_cohort_run _ legacy_gauss n_infected true); lia|].
  split; [apply build_data_run; lia|].
  cbn [pd_concat columns index values].
  split; [reflexivity|].
  split.
  { intros Hnd.
    apply (NoDup_app_disjoint _ _ 0 Hnd); apply in_map_iff; exists 0%nat;
      (split; [reflexivity | apply in_seq; lia]). }
  split; [reflexivity|].
  split.
  { apply Finite.Injective_map_NoDup; [exact Nat2Z.inj | apply seq_NoDup]. }
  split; reflexivity.
Qed.

(** X7: the names cell 32 pairs the importances with, [data.columns[:-1]],
    are exactly the columns of the feature table the split and the model
    receive, in the same order. *)
Theorem importance_names_are_feature_columns n_healthy n_infected r :
  0 <= n_healthy -> 0 <= n_infected ->
  exists data X y r',
    build_data legacy_gauss n_healthy n_infected r = inr (data, r')
    /\ build_dataset legacy_gauss n_healthy n_infected r = inr ((X, y), r')
    /\ importance_names data = columns X
    /\ length (importance_names data) = 8%nat.
Proof.
  intros Hh Hi. do 4 eexists.
  split; [apply build_data_run; assumption|].
  split; [apply build_dataset_run; assumption|].
  split; reflexivity.
Qed.

End DatasetFacts.

(** ** What the split keeps *)

Lemma map_nth_all {A} (d : A) (l : list A) :
  map (fun i => nth i l d) (seq 0 (length l)) = l.
Proof.
  induction l as [|x l IH]; [reflexivity|].
  cbn [length seq map nth]. f_equal.
  rewrite <- seq_shift, map_map. exact IH.
Qed.

Lemma combine_map_same {A B C} (f : A -> B) (g : A -> C) (l : list A) :
  combine (map f l) (map g l) = map (fun a => (f a, g a)) l.
Proof. induction l as [|a l IH]; [reflexivity|]. cbn. now rewrite IH. Qed.

Section SplitConservation.

Variable permutation : Z -> nat -> list nat.
Hypothesis permutation_spec :
  forall seed n, Permutation (permutation seed n) (seq 0 n).

(** X8: when the split returns, nothing is lost, duplicated or re-paired:
    the (feature row, label) pairs of the train part followed by those of
    the test part are a rearrangement of the input pairs, the row labels of
    the two parts are a rearrangement of the input's row labels, and both
    parts keep the input's columns. *)
Theorem split_conserves_rows_and_labels
        (X : DataFrame) (y : array) test_size seed n_train n_test :
  length y = nrows X ->
  length (index X) = nrows X ->
  validate_shuffle_split (nrows X) test_size = inr (n_train, n_test) ->
  0 < n_test < Z.of_nat (nrows X) ->
  exists X_train X_test y_train y_test,
    train_test_split permutation X y test_size seed
    = inr (X_train, X_test, y_train, y_test)
    /\ Permutation (combine (values X_train) y_train
                    ++ combine (values X_test) y_test)
                   (combine (values X) y)
    /\ Permutation (y_train ++ y_test) y
    /\ Permutation (index X_train ++ index X_test) (index X)
    /\ columns X_train = columns X
    /\ columns X_test = columns X.
Proof.
  intros Hy Hix Hv Hb.
  destruct (train_test_split_run permutation permutation_spec
              X y test_size seed _ _ Hy Hix Hv Hb) as [_ Hrun].
  destruct (split_indices permutation permutation_spec (nrows X) seed n_test)
    as (Hp & _ & _).
  do 4 eexists. split; [exact Hrun|].
  cbn [columns index values].
  split; [|split; [|split; [|split; reflexivity]]].
  - rewrite !combine_map_same, <- map_app.
    apply Permutation_trans
      with (map (fun i => (nth i (values X) [], nth i y 0%float))
                (seq 0 (nrows X)));
      [apply Permutation_map, Hp|].
    rewrite <- combine_map_same. rewrite <- Hy at 2. unfold nrows.
    rewrite !map_nth_all. reflexivity.
  - rewrite <- map_app.
    apply Permutation_trans
      with (map (fun i => nth i y 0%float) (seq 0 (nrows X)));
      [apply Permutation_map, Hp|].
    rewrite <- Hy, map_nth_all. reflexivity.
  - rewrite <- map_app.
    apply Permutation_trans
      with (map (fun i => nth i (index X) 0) (seq 0 (nrows X)));
      [apply Permutation_map, Hp|].
    rewrite <- Hix, map_nth_all. reflexivity.
Qed.

End SplitConservation.

(** ** Looking up the first row of a class *)

Lemma np_where_from_first (v : float) (y : array) start :
  match np_where_from start (np_equal y v) with
  | [] => Forall (fun x => (x =? v)%float = false) y
  | i :: _ =>
      (start <= i)%nat /\ (i - start < length y)%nat
      /\ (nth (i - start) y 0 =? v)%float = true
      /\ forall j, (j < i - start)%nat -> (nth j y 0 =? v)%float = false
  end.
Proof.
  revert start; induction y as [|x y IH]; intros start;
    cbn [np_equal map np_where_from]; [constructor|].
  destruct (x =? v)%float eqn:E.
  - rewrite Nat.sub_diag. cbn [length nth].
    repeat split; [lia | lia | exact E | intros j Hj; lia].
  - specialize (IH (S start)). fold (np_equal y v).
    destruct (np_where_from (S start) (np_equal y v)) as [|i rest].
    + constructor; assumption.
    + destruct IH as (Hs & Hlen & Hi & Hbefore).
      replace (i - start)%nat with (S (i - S start)) by lia.
      cbn [length nth]. repeat split; [lia | lia | exact Hi |].
      intros [|j] Hj; [exact E | apply Hbefore; lia].
Qed.

Lemma np_where_first_none (y : array) (v : float) :
  Forall (fun x => (x =? v)%float = false) y ->
  np_where_first y v = inl IndexError.
Proof.
  intros H. unfold np_where_first, np_where.
  assert (G : forall start, np_where_from start (np_equal y v) = []).
  { induction H as [|x y Hx _ IH]; intros start; [reflexivity|].
    cbn [np_equal map np_where_from]. rewrite Hx. apply IH. }
  now rewrite G.
Qed.

Lemma np_where_first_some (y : array) (v : float) :
  Exists (fun x => (x =? v)%float = true) y ->
  exists i, np_where_first y v = inr i /\ (i < length y)%nat
            /\ (nth i y 0 =? v)%float = true.
Proof.
  intros H. unfold np_where_first, np_where.
  assert (G := np_where_from_first v y 0).
  destruct (np_where_from 0 (np_equal y v)) as [|i rest].
  - exfalso. apply Exists_exists in H. destruct H as (x & Hin & Hx).
    rewrite Forall_forall in G. rewrite (G x Hin) in Hx. discriminate.
  - destruct G as (_ & Hlen & Hi & _). rewrite Nat.sub_0_r in *.
    exists i. repeat split; assumption.
Qed.

(** X9: [np.where(y == v)[0][0]] returns the least position whose entry
    compares equal to [v], and raises [IndexError] exactly when no entry
    does. *)
Theorem np_where_first_is_least (y : array) (v : float) :
  (forall i, np_where_first y v = inr i ->
             (i < length y)%nat
             /\ (nth i y 0 =? v)%float = true
             /\ forall j, (j < i)%nat -> (nth j y 0 =? v)%float = false)
  /\ (forall e, np_where_first y v = inl e ->
                e = IndexError
                /\ Forall (fun x => (x =? v)%float = false) y)
  /\ (Forall (fun x => (x =? v)%float = false) y ->
      np_where_first y v = inl IndexError).
Proof.
  assert (G := np_where_from_first v y 0).
  unfold np_where_first, np_where.
  destruct (np_where_from 0 (np_equal y v)) as [|i0 rest].
  - split; [intros i H; discriminate|].
    split; [intros e H; injection H as <-; split; [reflexivity | exact G]|].
    reflexivity.
  - destruct G as (_ & Hlen & Hi & Hbefore). rewrite Nat.sub_0_r in *.
    split; [intros i H; injection H as <-; repeat split; assumption|].
    split; [intros e H; discriminate|].
    intros Hall. exfalso.
    rewrite Forall_forall in Hall.
    rewrite (Hall (nth i0 y 0%float)) in Hi by (apply nth_In; exact Hlen).
    discriminate.
Qed.

(** ** Cell 7 as the notebook runs it, and the lookups that follow *)

Lemma NoDup_firstn {A} k (l : list A) : NoDup l -> NoDup (firstn k l).
Proof.
  intros H. rewrite <- (firstn_skipn k l) in H.
  exact (NoDup_app_remove_r _ _ H).
Qed.

(** Among more than [n - m] distinct indices below [n], one is below [m]. *)
Lemma some_index_below (l : list nat) n m :
  NoDup l -> (forall i, In i l -> (i < n)%nat) -> (n - m < length l)%nat ->
  exists i, In i l /\ (i < m)%nat.
Proof.
  intros Hnd Hrange Hlen.
  destruct (Forall_Exists_dec (fun i => (m <= i)%nat)
              (fun i => le_dec m i) l) as [Hall | Hex].
  - exfalso. rewrite Forall_forall in Hall.
    assert (Hincl : incl l (seq m (n - m))).
    { intros i Hi. apply in_seq. specialize (Hall i Hi).
      specialize (Hrange i Hi). lia. }
    apply (NoDup_incl_length Hnd) in Hincl. rewrite length_seq in Hincl. lia.
  - apply Exists_exists in Hex. destruct Hex as (i & Hi & Hlt).
    exists i. split; [exact Hi | lia].
Qed.

Lemma label_of_healthy_block kh ki i :
  (i < kh)%nat -> nth i (repeat 0%float kh ++ repeat 1%float ki) 0%float = 0%float.
Proof.
  intros Hi. rewrite app_nth1 by (rewrite repeat_length; exact Hi).
  apply nth_repeat_lt. exact Hi.
Qed.

Section NotebookFacts.

Variable rng : Type.
Variable legacy_gauss : rng -> float * rng.
Variable permutation : Z -> nat -> list nat.
Hypothesis permutation_spec :
  forall seed n, Permutation (permutation seed n) (seq 0 n).

(** Closed form of cell 7: the dataset, then the rows and labels picked by
    the two index lists cut from the permutation. *)
Lemma notebook_cell7_run r :
  exists X r',
    let y := repeat 0%float 900 ++ repeat 1%float 100 in
    let train := skipn 200 (permutation 0 1000) in
    let test := firstn 200 (permutation 0 1000) in
    let rows_at idx :=
      {| columns := columns X;
         index := map (fun i => nth i (index X) 0) idx;
         values := map (fun i => nth i (values X) []) idx |} in
    build_dataset legacy_gauss 900 100 r = inr ((X, y), r')
    /\ nrows X = 1000%nat
    /\ index X = map Z.of_nat (seq 0 1000)
    /\ columns X = firstn 8 COLUMNS
    /\ notebook_cell7 legacy_gauss permutation r
       = inr ((rows_at train, rows_at test,
               map (fun i => nth i y 0%float) train,
               map (fun i => nth i y 0%float) test), r').
Proof.
  do 2 eexists. cbv zeta.
  split; [apply build_dataset_run; lia|].
  set (X := {| columns := firstn 8 COLUMNS |}).
  assert (HX : nrows X = 1000%nat).
  { unfold nrows, X. cbn [values].
    rewrite length_app, !length_map, !length_seq. reflexivity. }
  split; [exact HX|]. split; [reflexivity|]. split; [reflexivity|].
  unfold notebook_cell7, bind.
  rewrite build_dataset_run by lia. cbv zeta. fold X. cbn [fst snd].
  assert (Hy : length (repeat 0%float (Z.to_nat 900)
                       ++ repeat 1%float (Z.to_nat 100)) = nrows X)
    by (rewrite HX, length_app, !repeat_length; reflexivity).
  assert (Hix : length (index X) = nrows X)
    by (rewrite HX; unfold X; cbn [index];
        rewrite length_map, length_seq; reflexivity).
  assert (Hv : validate_shuffle_split (nrows X) 0.2 = inr (800, 200))
    by (rewrite HX; vm_compute; reflexivity).
  assert (Hb : 0 < 200 < Z.of_nat (nrows X)) by (rewrite HX; lia).
  destruct (train_test_split_run permutation permutation_spec
              X _ 0.2%float 0 _ _ Hy Hix Hv Hb) as [_ Hrun].
  rewrite Hrun, HX. reflexivity.
Qed.

(** X10: run on the notebook's own dataset, whatever the generator state
    and whatever rearrangement the shuffle picks, cell 7 returns 800 train
    rows and 200 test rows under the eight feature names; the train labels
    followed by the test labels are a rearrangement of 900 zeros and 100
    ones; and the row labels of the two parts are distinct and together are
    0 .. 999, so a row label identifies the generated record. *)
Theorem notebook_cell7_outcome r :
  exists X_train X_test y_train y_test r',
    notebook_cell7 legacy_gauss permutation r
    = inr ((X_train, X_test, y_train, y_test), r')
    /\ nrows X_train = 800%nat /\ length y_train = 800%nat
    /\ nrows X_test = 200%nat /\ length y_test = 200%nat
    /\ Permutation (y_train ++ y_test)
                   (repeat 0%float 900 ++ repeat 1%float 100)
    /\ Permutation (index X_train ++ index X_test) (map Z.of_nat (seq 0 1000))
    /\ NoDup (index X_train ++ index X_test)
    /\ columns X_train = firstn 8 COLUMNS
    /\ columns X_test = firstn 8 COLUMNS.
Proof.
  destruct (notebook_cell7_run r) as (X & r' & _ & HX & Hix & Hcols & Hrun).
  cbv zeta in Hrun.
  destruct (split_indices permutation permutation_spec 1000 0 200)
    as (Hp & Hlt & Hlr). cbv zeta in Hp, Hlt, Hlr.
  change (Z.to_nat 200) with 200%nat in Hp, Hlt, Hlr.
  do 5 eexists. split; [exact Hrun|].
  unfold nrows. cbn [columns index values]. rewrite !length_map, Hlt, Hlr.
  do 4 (split; [reflexivity|]).
  assert (Hlabels :
    Permutation
      (map (fun i => nth i (index X) 0) (skipn 200 (permutation 0 1000))
       ++ map (fun i => nth i (index X) 0) (firstn 200 (permutation 0 1000)))
      (map Z.of_nat (seq 0 1000))).
  { rewrite <- map_app.
    apply Permutation_trans
      with (map (fun i => nth i (index X) 0) (seq 0 1000));
      [apply Permutation_map, Hp|].
    rewrite Hix.
    pose proof (map_nth_all 0 (map Z.of_nat (seq 0 1000))) as E.
    rewrite length_map, length_seq in E. rewrite E. reflexivity. }
  split.
  { rewrite <- map_app.
    apply Permutation_trans
      with (map (fun i => nth i (repeat 0%float 900 ++ repeat 1%float 100) 0%float)
                (seq 0 1000));
      [apply Permutation_map, Hp|].
    pose proof (map_nth_all 0%float
                  (repeat 0%float 900 ++ repeat 1%float 100)) as E.
    rewrite length_app, !repeat_length in E.
    change (900 + 100)%nat with 1000%nat in E. rewrite E. reflexivity. }
  split; [exact Hlabels|].
  split; [|split; exact Hcols].
  apply (Permutation_NoDup (Permutation_sym Hlabels)).
  apply Finite.Injective_map_NoDup; [exact Nat2Z.inj | apply seq_NoDup].
Qed.

(** X11: cell 44 cannot fail on the notebook's dataset.  The test part
    has 200 distinct rows and only 100 rows are infected, so it holds a
    healthy row whatever the shuffle, and the lookup of the first healthy
    test row returns a position whose label is 0. *)
Theorem notebook_healthy_index_found r :
  exists X_train X_test y_train y_test i r',
    notebook_cell7 legacy_gauss permutation r
    = inr ((X_train, X_test, y_train, y_test), r')
    /\ notebook_healthy_index legacy_gauss permutation r = inr (i, r')
    /\ (i < length y_test)%nat
    /\ (nth i y_test 0 =? 0)%float = true.
Proof.
  destruct (notebook_cell7_run r) as (X & r' & _ & _ & _ & _ & Hrun).
  cbv zeta in Hrun.
  set (y := repeat 0%float 900 ++ repeat 1%float 100) in *.
  set (test := firstn 200 (permutation 0 1000)) in *.
  assert (Hex : Exists (fun x => (x =? 0)%float = true)
                       (map (fun i => nth i y 0%float) test)).
  { destruct (some_index_below test 1000 900) as (i & Hi & Hlt).
    - apply NoDup_firstn.
      apply (Permutation_NoDup (Permutation_sym (permutation_spec 0 1000))).
      apply seq_NoDup.
    - intros i Hi. apply in_firstn_list in Hi.
      apply (Permutation_in _ (permutation_spec 0 1000)) in Hi.
      apply in_seq in Hi. lia.
    - unfold test. rewrite length_firstn.
      rewrite (Permutation_length (permutation_spec 0 1000)), length_seq.
      cbn. lia.
    - apply Exists_exists. exists (nth i y 0%float).
      split; [apply in_map_iff; exists i; split; [reflexivity | exact Hi]|].
      unfold y. rewrite label_of_healthy_block by exact Hlt. reflexivity. }
  destruct (np_where_first_some _ _ Hex) as (i & Hfirst & Hlen & Hi).
  do 4 eexists. exists i, r'.
  split; [exact Hrun|].
  unfold notebook_healthy_index, bind. rewrite Hrun. cbn [snd].
  rewrite Hfirst. repeat split; assumption.
Qed.

End NotebookFacts.

(** ** The series the exploration plots draw *)

Lemma select_map {A B} (f : A -> B) mask (l : list A) :
  select mask (map f l) = map f (select mask l).
Proof.
  revert l; induction mask as [|b mask IH]; intros [|x l]; cbn;
    try reflexivity.
  destruct b; cbn; now rewrite IH.
Qed.

(** Selecting by the mask [p] of the labels keeps the rows whose label
    satisfies [p]. *)
Lemma select_by_label {A} (p : float -> bool) (l : list A) (y : array) :
  length y = length l ->
  select (map p y) l = map fst (filter (fun q => p (snd q)) (combine l y)).
Proof.
  revert y; induction l as [|x l IH]; intros [|v y] H; cbn in *;
    try discriminate; try reflexivity.
  destruct (p v); cbn; rewrite IH by lia; reflexivity.
Qed.

Lemma select_partition {A} mask (l : list A) :
  length mask = length l ->
  Permutation (select mask l ++ select (map negb mask) l) l.
Proof.
  revert l; induction mask as [|b mask IH]; intros [|x l] H; cbn in *;
    try discriminate; [constructor|].
  destruct b; cbn.
  - constructor. apply IH. lia.
  - apply Permutation_sym, Permutation_cons_app, Permutation_sym, IH. lia.
Qed.

Lemma np_equal_one_complements_zero (y : array) :
  Forall (fun v => v = 0%float \/ v = 1%float) y ->
  np_equal y 1 = map negb (np_equal y 0).
Proof.
  induction 1 as [|v y [-> | ->] _ IH]; cbn; [reflexivity | |];
    unfold np_equal in IH; rewrite IH; reflexivity.
Qed.

Lemma np_equal_length (y : array) v : length (np_equal y v) = length y.
Proof. apply length_map. Qed.

Lemma loc_mask_run mask name (X : DataFrame) j :
  get_loc name (columns X) = Some j ->
  length mask = nrows X ->
  loc_mask mask name X
  = inr (select mask (map (fun row => nth j row nan) (values X))).
Proof.
  intros Hj Hlen. unfold loc_mask, column_values.
  rewrite Hj, Hlen, Nat.eqb_refl. reflexivity.
Qed.

(** X13: the healthy series [plot_histogram] passes to [plt.hist] holds
    the feature values of exactly the rows whose label compares equal to 0,
    the infected series those of the rows whose label compares equal to 1,
    both in row order; a row with any other label is in neither.  When every
    label is 0 or 1 the two series together are a rearrangement of the whole
    column. *)
Theorem plot_histogram_series_by_label
        (X : DataFrame) (y : array) (feature : string) (j : nat) :
  get_loc feature (columns X) = Some j ->
  length y = nrows X ->
  exists healthy infected,
    plot_histogram_series X y feature = inr (healthy, infected)
    /\ healthy
       = map (fun q => nth j (fst q) nan)
             (filter (fun q => (snd q =? 0)%float) (combine (values X) y))
    /\ infected
       = map (fun q => nth j (fst q) nan)
             (filter (fun q => (snd q =? 1)%float) (combine (values X) y))
    /\ (Forall (fun v => v = 0%float \/ v = 1%float) y ->
        Permutation (healthy ++ infected)
                    (map (fun row => nth j row nan) (values X))
        /\ (length healthy + length infected = nrows X)%nat).
Proof.
  intros Hj Hy. unfold plot_histogram_series.
  rewrite !(loc_mask_run _ _ _ j Hj)
    by (unfold np_equal; rewrite length_map; exact Hy).
  do 2 eexists. split; [reflexivity|].
  split; [|split].
  - unfold np_equal.
    rewrite select_map, select_by_label, map_map by exact Hy. reflexivity.
  - unfold np_equal.
    rewrite select_map, select_by_label, map_map by exact Hy. reflexivity.
  - intros H01.
    assert (Hp : Permutation
                   (select (np_equal y 0)
                      (map (fun row => nth j row nan) (values X))
                    ++ select (np_equal y 1)
                         (map (fun row => nth j row nan) (values X)))
                   (map (fun row => nth j row nan) (values X))).
    { rewrite (np_equal_one_complements_zero y H01).
      apply select_partition.
      unfold np_equal. rewrite !length_map. exact Hy. }
    split; [exact Hp|].
    apply Permutation_length in Hp. rewrite length_app, length_map in Hp.
    exact Hp.
Qed.

(** X14: every point [plot_scatter] passes to [plt.plot] pairs the two
    feature values of one and the same row: the healthy points are the
    (feature1, feature2) pairs of the rows whose label compares equal to 0,
    the infected points those of the rows whose label compares equal to 1,
    so the x and y arrays of a series always have the same length. *)
Theorem plot_scatter_points_are_rows
        (X : DataFrame) (y : array) (feature1 feature2 : string) (j1 j2 : nat) :
  get_loc feature1 (columns X) = Some j1 ->
  get_loc feature2 (columns X) = Some j2 ->
  length y = nrows X ->
  exists x0 y0 x1 y1,
    plot_scatter_series X y feature1 feature2 = inr ((x0, y0), (x1, y1))
    /\ combine x0 y0
       = map (fun q => (nth j1 (fst q) nan, nth j2 (fst q) nan))
             (filter (fun q => (snd q =? 0)%float) (combine (values X) y))
    /\ combine x1 y1
       = map (fun q => (nth j1 (fst q) nan, nth j2 (fst q) nan))
             (filter (fun q => (snd q =? 1)%float) (combine (values X) y))
    /\ length x0 = length y0
    /\ length x1 = length y1.
Proof.
  intros H1 H2 Hy. unfold plot_scatter_series.
  rewrite !(loc_mask_run _ _ _ j1 H1), !(loc_mask_run _ _ _ j2 H2)
    by (unfold np_equal; rewrite length_map; exact Hy).
  do 4 eexists. split; [reflexivity|].
  unfold np_equal.
  rewrite !select_map, !select_by_label, !map_map by exact Hy.
  rewrite !combine_map_same, !length_map.
  repeat split; reflexivity.
Qed.

(** X16: cell 27 hands [predict_proba] two frames cut from the test
    rows by the same labels: [X_test[y_test==0]] holds exactly the rows whose
    label compares equal to 0, [X_test[y_test==1]] those whose label compares
    equal to 1, in row order and under the test frame's columns; when every
    label is 0 or 1 each test row is in exactly one of the two. *)
Theorem test_rows_by_class_selects (X_test : DataFrame) (y_test : array) :
  length y_test = nrows X_test ->
  exists healthy infected,
    test_rows_by_class X_test y_test = inr (healthy, infected)
    /\ values healthy
       = map fst (filter (fun q => (snd q =? 0)%float)
                         (combine (values X_test) y_test))
    /\ values infected
       = map fst (filter (fun q => (snd q =? 1)%float)
                         (combine (values X_test) y_test))
    /\ columns healthy = columns X_test
    /\ columns infected = columns X_test
    /\ (Forall (fun v => v = 0%float \/ v = 1%float) y_test ->
        Permutation (values healthy ++ values infected) (values X_test)
        /\ (nrows healthy + nrows infected = nrows X_test)%nat).
Proof.
  intros Hy. unfold test_rows_by_class, getitem_mask.
  rewrite !np_equal_length, Hy, Nat.eqb_refl.
  do 2 eexists. split; [reflexivity|].
  cbn [columns values]. unfold nrows in *. cbn [values].
  split; [apply (select_by_label (fun x => (x =? 0)%float)); exact Hy|].
  split; [apply (select_by_label (fun x => (x =? 1)%float)); exact Hy|].
  do 2 (split; [reflexivity|]).
  intros H01.
  assert (Hp : Permutation (select (np_equal y_test 0) (values X_test)
                            ++ select (np_equal y_test 1) (values X_test))
                           (values X_test)).
  { rewrite (np_equal_one_complements_zero y_test H01).
    apply select_partition. unfold np_equal. rewrite length_map. exact Hy. }
  split; [exact Hp|].
  apply Permutation_length in Hp. rewrite length_app in Hp. exact Hp.
Qed.

(** ** The axis label of the histograms *)

Lemma str_split_nonempty sep s : str_split sep s <> [].
Proof.
  destruct s as [|c s]; cbn; [discriminate|].
  destruct (Ascii.eqb c sep); [discriminate|].
  destruct (str_split sep s); discriminate.
Qed.

Lemma underscores_to_spaces_length s :
  String.length (underscores_to_spaces s) = String.length s.
Proof. induction s as [|c s IH]; cbn; [reflexivity | now rewrite IH]. Qed.

(** X15: the axis label [" ".join(feature.split("_"))] is the feature name
    with every underscore replaced by a space and nothing else changed; in
    particular it has the length of the name. *)
Theorem histogram_xlabel_replaces_underscores (feature : string) :
  histogram_xlabel feature = underscores_to_spaces feature
  /\ String.length (histogram_xlabel feature) = String.length feature.
Proof.
  assert (E : histogram_xlabel feature = underscores_to_spaces feature).
  { unfold histogram_xlabel.
    induction feature as [|c s IH]; [reflexivity|].
    cbn [str_split underscores_to_spaces].
    pose proof (str_split_nonempty "_" s) as Hne.
    destruct (Ascii.eqb c "_").
    - destruct (str_split "_" s) as [|piece pieces]; [contradiction|].
      change (String.concat " " (EmptyString :: piece :: pieces))
        with (String " " (String.concat " " (piece :: pieces))).
      now rewrite IH.
    - destruct (str_split "_" s) as [|piece pieces]; [contradiction|].
      rewrite <- IH. destruct pieces; reflexivity. }
  split; [exact E|].
  rewrite E. apply underscores_to_spaces_length.
Qed.

(** ** The further properties at concrete inputs *)


Lemma body_temperature_from_daily_average_witness :
  0 <= 2
  /\ exists df r' daily_avg noise r3 r4,
       generate_cohort Toy.legacy_gauss 2 true 0 = inr (df, r')
       /\ np_random_normal Toy.legacy_gauss 36.7 0.05 2
            (after_draws Toy.legacy_gauss 2 2 0)
          = inr (daily_avg, r3)
       /\ np_random_normal Toy.legacy_gauss 0 0.01 2 r3 = inr (noise, r4)
       /\ forall i, (i < 2)%nat ->
            cell df i "daily_avg_body_temperature"
            = Some (nth i daily_avg 0%float)
            /\ cell df i "body_temperature"
               = Some (nth i daily_avg 0 + nth i noise 0)%float.
Proof.
  split; [lia|].
  apply (body_temperature_from_daily_average Toy.rng Toy.legacy_gauss 2 true 0).
  lia.
Defined.

Lemma record_from_stream_witness :
  0 <= 2
  /\ exists df r',
       generate_cohort Toy.legacy_gauss 2 false 0 = inr (df, r')
       /\ nth_error (values df) 1
          = Some [ 105; 68.949999999999989; 36.75; 36.75;
                   13.199999999999999; 13.699999999999999;
                   72.599999999999994; 68.599999999999994; 0 ]%float.
Proof.
  split; [lia|].
  destruct (record_from_stream Toy.rng Toy.legacy_gauss 2 false 0)
    as (df & r' & Hrun & Hrow); [lia|].
  exists df, r'. split; [exact Hrun|].
  rewrite (Hrow 1%nat) by (cbn; lia). vm_compute. reflexivity.
Defined.

Lemma generate_cohort_consumes_8n_witness :
  0 <= 3
  /\ exists df,
       generate_cohort Toy.legacy_gauss 3 true 5
       = inr (df, advance Toy.legacy_gauss 24 5).
Proof.
  split; [lia|].
  apply (generate_cohort_consumes_8n Toy.rng Toy.legacy_gauss 3 true 5). lia.
Defined.

Lemma build_dataset_blocks_witness :
  0 <= 2 /\ 0 <= 1
  /\ exists X y r',
       build_dataset Toy.legacy_gauss 2 1 0 = inr ((X, y), r')
       /\ y = [0; 0; 1]%float
       /\ index X = [0; 1; 2]
       /\ nrows X = 3%nat.
Proof.
  split; [lia|]. split; [lia|].
  destruct (build_dataset_blocks Toy.rng Toy.legacy_gauss 2 1 0)
    as (X & y & r' & healthy & infected & r1
        & Hrun & _ & _ & _ & _ & Hy & Hn & _ & Hix & _);
    [lia | lia |].
  exists X, y, r'.
  split; [exact Hrun|]. split; [exact Hy|]. split; [exact Hix | exact Hn].
Defined.

Lemma build_dataset_rejects_negative_counts_witness :
  (-1 < 0 \/ 3 < 0)
  /\ build_dataset Toy.legacy_gauss (-1) 3 0 = inl ValueError.
Proof.
  split; [left; lia|].
  apply (build_dataset_rejects_negative_counts Toy.rng Toy.legacy_gauss).
  left; lia.
Defined.

Lemma reset_index_makes_labels_unique_witness :
  0 < 2 /\ 0 < 1
  /\ exists healthy infected data r1 r2,
       generate_healthy Toy.legacy_gauss 2 0 = inr (healthy, r1)
       /\ generate_infected Toy.legacy_gauss 1 r1 = inr (infected, r2)
       /\ build_data Toy.legacy_gauss 2 1 0 = inr (data, r2)
       /\ index (pd_concat healthy infected) = [0; 1; 0]
       /\ index data = [0; 1; 2].
Proof.
  split; [lia|]. split; [lia|].
  destruct (reset_index_makes_labels_unique Toy.rng Toy.legacy_gauss 2 1 0)
    as (healthy & infected & data & r1 & r2 & Hh & Hi & Hd & Hc & _ & Hix & _);
    [lia | lia |].
  exists healthy, infected, data, r1, r2. repeat split; assumption.
Defined.

Lemma importance_names_are_feature_columns_witness :
  0 <= 2 /\ 0 <= 1
  /\ exists data X y r',
       build_data Toy.legacy_gauss 2 1 0 = inr (data, r')
       /\ build_dataset Toy.legacy_gauss 2 1 0 = inr ((X, y), r')
       /\ importance_names data = columns X
       /\ length (importance_names data) = 8%nat.
Proof.
  split; [lia|]. split; [lia|].
  apply (importance_names_are_feature_columns Toy.rng Toy.legacy_gauss 2 1 0);
    lia.
Defined.

Lemma split_conserves_rows_and_labels_witness :
  exists X_train X_test y_train y_test,
    train_test_split Toy.permutation six_rows six_labels 0.2 0
    = inr (X_train, X_test, y_train, y_test)
    /\ Permutation (y_train ++ y_test) six_labels
    /\ Permutation (index X_train ++ index X_test) (index six_rows).
Proof.
  destruct (split_conserves_rows_and_labels Toy.permutation toy_permutation_spec
              six_rows six_labels 0.2%float 0 4 2)
    as (X_train & X_test & y_train & y_test & Hrun & _ & Hy & Hix & _);
    [reflexivity | reflexivity | vm_compute; reflexivity | cbn; lia |].
  exists X_train, X_test, y_train, y_test. repeat split; assumption.
Defined.

Lemma notebook_cell7_outcome_witness :
  exists X_train X_test y_train y_test r',
    notebook_cell7 Toy.legacy_gauss Toy.permutation 0
    = inr ((X_train, X_test, y_train, y_test), r')
    /\ nrows X_train = 800%nat /\ nrows X_test = 200%nat.
Proof.
  destruct (notebook_cell7_outcome Toy.rng Toy.legacy_gauss Toy.permutation
              toy_permutation_spec 0)
    as (X_train & X_test & y_train & y_test & r' & Hrun & Htr & _ & Hte & _).
  exists X_train, X_test, y_train, y_test, r'. repeat split; assumption.
Defined.

Lemma notebook_healthy_index_found_witness :
  exists i r',
    notebook_healthy_index Toy.legacy_gauss Toy.permutation 0 = inr (i, r').
Proof.
  destruct (notebook_healthy_index_found Toy.rng Toy.legacy_gauss Toy.permutation
              toy_permutation_spec 0)
    as (_ & _ & _ & _ & i & r' & _ & Hrun & _).
  exists i, r'. exact Hrun.
Defined.

Lemma plot_histogram_series_by_label_witness :
  exists healthy infected,
    plot_histogram_series four_points four_labels "pulse_rate"
    = inr (healthy, infected)
    /\ healthy = [70; 72]%float
    /\ infected = [95; 99]%float.
Proof.
  destruct (plot_histogram_series_by_label four_points four_labels "pulse_rate" 0)
    as (healthy & infected & Hrun & Hh & Hi & _); [reflexivity | reflexivity |].
  exists healthy, infected. split; [exact Hrun|].
  split; [rewrite Hh | rewrite Hi]; reflexivity.
Defined.

Lemma plot_scatter_points_are_rows_witness :
  exists x0 y0 x1 y1,
    plot_scatter_series four_points four_labels "pulse_rate" "respiration_rate"
    = inr ((x0, y0), (x1, y1))
    /\ combine x0 y0 = [(70, 14); (72, 13)]%float
    /\ combine x1 y1 = [(95, 17); (99, 16)]%float.
Proof.
  destruct (plot_scatter_points_are_rows four_points four_labels
              "pulse_rate" "respiration_rate" 0 1)
    as (x0 & y0 & x1 & y1 & Hrun & H0 & H1 & _);
    [reflexivity | reflexivity | reflexivity |].
  exists x0, y0, x1, y1. split; [exact Hrun|].
  split; [rewrite H0 | rewrite H1]; reflexivity.
Defined.

Example histogram_xlabel_of_a_feature :
  histogram_xlabel "daily_avg_pulse_rate" = "daily avg pulse rate"%string
  /\ histogram_xlabel "a__b_" = "a  b "%string.
Proof. split; reflexivity. Qed.

Example first_index_runs :
  np_where_first [0; 0; 1; 1]%float 1 = inr 2%nat
  /\ np_where_first [0; 0]%float 1 = inl IndexError
  /\ np_where_first [nan]%float nan = inl IndexError.
Proof. repeat split; reflexivity. Qed.

Lemma test_rows_by_class_selects_witness :
  exists healthy infected,
    test_rows_by_class four_points four_labels = inr (healthy, infected)
    /\ values healthy = [[70; 14]; [72; 13]]%float
    /\ values infected = [[95; 17]; [99; 16]]%float.
Proof.
  destruct (test_rows_by_class_selects four_points four_labels)
    as (healthy & infected & Hrun & Hh & Hi & _); [reflexivity|].
  exists healthy, infected. split; [exact Hrun|].
  split; [rewrite Hh | rewrite Hi]; reflexivity.
Defined.
